(** * PassBi Python SDK: the request wrapper, its rate-limit bookkeeping
      and its error type

    Shallow embedding of [sdks/python/passbi_client.py].  Python objects
    are values of [pyval]; the client's methods are computations in a
    state-and-exception monad over the client object and its environment
    (the remote server, the dict objects on the heap, the log of requests
    dispatched, standard output). *)

From Stdlib Require Import ZArith String Ascii.
From Stdlib Require Import Floats.PrimFloat.
From stdpp Require Import gmap strings list fin_maps pretty.

Local Open Scope string_scope.
Local Set Warnings "-register-all,-clear-no-such-hyp".

(** ** Python values *)

(** The objects the client handles: what [response.json()] can return and
    what callers pass as arguments.  [PNone] is [None] (JSON [null]). *)
Inductive pyval :=
| PNone
| PBool (b : bool)
| PInt (n : Z)
| PFloat (f : float)
| PStr (s : string)
| PList (l : list pyval)
| PDict (d : gmap string pyval).

(** Truth value of an object, as used by [not], [if] and [or]. *)
Definition truthy (v : pyval) : bool :=
  match v with
  | PNone => false
  | PBool b => b
  | PInt n => negb (n =? 0)%Z
  | PFloat f => negb (PrimFloat.eqb f 0%float)
  | PStr s => negb (String.eqb s "")
  | PList l => match l with [] => false | _ :: _ => true end
  | PDict d => negb (bool_decide (d = ∅))
  end.

(** [a or b]: [a] when it is truthy, else [b]. *)
Definition py_or (a b : pyval) : pyval := if truthy a then a else b.

(** [x is None] *)
Definition is_none (v : pyval) : bool :=
  match v with PNone => true | _ => false end.

(** [x in [s1, s2, ...]] for a list of string literals: element-wise [==],
    which only a [str] equal to one of them satisfies. *)
Definition in_strs (v : pyval) (l : list string) : bool :=
  match v with
  | PStr s => existsb (String.eqb s) l
  | _ => false
  end.

(** ** Strings *)

Module Str.

(** [s.startswith(p)] *)
Fixpoint startswith (p s : string) : bool :=
  match p, s with
  | EmptyString, _ => true
  | String a p', String b s' => Ascii.eqb a b && startswith p' s'
  | String _ _, EmptyString => false
  end.

(** [s.rstrip(ch)] for a single character [ch]: every trailing [ch] goes. *)
Fixpoint rstrip (ch : ascii) (s : string) : string :=
  match s with
  | EmptyString => EmptyString
  | String c s' =>
      match rstrip ch s' with
      | EmptyString => if Ascii.eqb c ch then EmptyString else String c EmptyString
      | r => String c r
      end
  end.

(** [c.lower()] on a Latin-1 character: A-Z and the accented capitals
    U+00C0-U+00DE (but not the multiplication sign U+00D7) move up by 32. *)
Definition lower_char (c : ascii) : ascii :=
  let n := nat_of_ascii c in
  if (Nat.leb 65 n && Nat.leb n 90)
     || (Nat.leb 192 n && Nat.leb n 222 && negb (Nat.eqb n 215))
  then ascii_of_nat (n + 32) else c.

Fixpoint lower (s : string) : string :=
  match s with
  | EmptyString => EmptyString
  | String c s' => String (lower_char c) (lower s')
  end.

End Str.

(** ** The built-in [int] on a string *)

Module PyInt.

(** Characters the conversion skips around the literal: the C-locale
    white space, and the two Latin-1 spaces (U+0085, U+00A0) that the
    interpreter first turns into a blank. *)
Definition is_space (c : ascii) : bool :=
  let n := nat_of_ascii c in
  Nat.eqb n 32 || (Nat.leb 9 n && Nat.leb n 13) || Nat.eqb n 133 || Nat.eqb n 160.

Definition digit_value (c : ascii) : option Z :=
  let n := nat_of_ascii c in
  if Nat.leb 48 n && Nat.leb n 57 then Some (Z.of_nat (n - 48)) else None.

Fixpoint lstrip (s : string) : string :=
  match s with
  | String c s' => if is_space c then lstrip s' else s
  | EmptyString => EmptyString
  end.

Fixpoint all_space (s : string) : bool :=
  match s with
  | String c s' => is_space c && all_space s'
  | EmptyString => true
  end.

(** The digit loop: digits and single underscores; [prev_us] tells that
    the character before was an underscore.  Returns the value read, the
    number of digits and the rest of the text; [None] for a doubled or a
    trailing underscore. *)
Fixpoint scan (s : string) (prev_us : bool) (acc : Z) (digits : nat)
  : option (Z * nat * string) :=
  match s with
  | String c s' =>
      match digit_value c with
      | Some d => scan s' false (10 * acc + d)%Z (S digits)
      | None =>
          if Ascii.eqb c "_"
          then (if prev_us then None else scan s' true acc digits)
          else (if prev_us then None else Some (acc, digits, s))
      end
  | EmptyString => if prev_us then None else Some (acc, digits, s)
  end.

(** Texts longer than this many digits are checked against the
    interpreter's limit. *)
Definition max_str_digits_threshold : nat := 640.

(** [int(s)] in base 10: optional white space, optional sign, digits with
    single underscores between them, optional white space.  [max_digits]
    is the interpreter's [sys.get_int_max_str_digits()] (0: no limit;
    4300 by default since Python 3.11, 0 for an interpreter without the
    limit).  [None] stands for [ValueError]. *)
Definition of_string (max_digits : nat) (s : string) : option Z :=
  let s1 := lstrip s in
  let '(neg, s2) :=
    match s1 with
    | String c r =>
        if Ascii.eqb c "+" then (false, r)
        else if Ascii.eqb c "-" then (true, r)
        else (false, s1)
    | EmptyString => (false, s1)
    end in
  match s2 with
  | String c _ =>
      if Ascii.eqb c "_" then None
      else
        match scan s2 false 0%Z 0 with
        | Some (v, digits, rest) =>
            if Nat.eqb digits 0 then None
            else if Nat.ltb max_str_digits_threshold digits
                    && Nat.ltb 0 max_digits && Nat.ltb max_digits digits
            then None
            else if all_space rest then Some (if neg then (- v)%Z else v)
            else None
        | None => None
        end
  | EmptyString => None
  end.

End PyInt.

(** ** Response headers *)

(** [requests.structures.CaseInsensitiveDict]: entries are stored under
    the lower-cased name and looked up by the lower-cased name. *)
Module Headers.

Definition set (name value : string) (h : gmap string string) : gmap string string :=
  <[Str.lower name := value]> h.

Definition get (h : gmap string string) (name : string) : option string :=
  h !! Str.lower name.

End Headers.

(** ** Exceptions *)

(** [PassBiError]: the four attributes its constructor stores.  The
    annotations say [str], [int], [Optional[str]] and [Optional[Dict]];
    [_request] stores whatever the body holds in [message] and
    [error_code], so these are [pyval]. *)
Record PassBiError := mkPassBiError {
  message : pyval;
  status_code : Z;
  error_code : pyval;
  details : pyval;
}.

Inductive exn :=
| ValueError (msg : string)          (* raise ValueError(msg) *)
| IntLiteralError (text : string)    (* the ValueError of int(text) *)
| JSONDecodeError                    (* json's error, a ValueError, from response.json() *)
| AttributeError (attr : string)     (* object without attribute attr *)
| RequestsTimeout (text : string)    (* requests.exceptions.Timeout *)
| RequestException (text : string)   (* any other requests.exceptions.RequestException *)
| PassBiErr (e : PassBiError).

(** [isinstance(e, ValueError)] *)
Definition is_ValueError (e : exn) : bool :=
  match e with
  | ValueError _ | IntLiteralError _ | JSONDecodeError => true
  | _ => false
  end.

(** [isinstance(e, PassBiError)] *)
Definition is_PassBiError (e : exn) : bool :=
  match e with PassBiErr _ => true | _ => false end.

Inductive result (A : Type) :=
| Return (a : A)
| Raise (e : exn).
Arguments Return {A} a.
Arguments Raise {A} e.

(** ** The HTTP library, as the client sees it *)

(** The arguments of [session.request], with the headers the session adds. *)
Record request := mkRequest {
  req_method : string;
  req_url : string;
  req_params : pyval;
  req_json : pyval;
  req_timeout : Z;
  req_headers : gmap string string;
}.

(** What [response.json()] does: returns the decoded body, or raises.
    From requests 2.27 on the error is a [RequestException] (with its
    text); before, it is the json module's error, a plain [ValueError]. *)
Inductive json_outcome :=
| Decoded (data : pyval)
| NotJSON (as_request_exception : option string).

Record response := mkResponse {
  resp_status : Z;
  resp_headers : gmap string string;
  resp_json : json_outcome;
}.

(** [response.ok]: [raise_for_status] raises for 400 <= status < 600. *)
Definition ok (r : response) : bool :=
  negb ((400 <=? resp_status r)%Z && (resp_status r <? 600)%Z).

(** How a call of [session.request] ends. *)
Inductive outcome :=
| Responded (r : response)
| TimedOut (text : string)
| Failed (text : string).

Record Session := mkSession {
  session_headers : gmap string string;
  session_closed : bool;
}.

(** ** Client and environment *)

(** A line of debug output, by the values its f-string formats. *)
Inductive debug_line :=
| DbgRequest (method url : string)
| DbgParams (params : pyval)
| DbgBody (json : pyval).

(** The client object.  [rate_limit_info] is a reference: the address of
    a dict object on the heap. *)
Record PassBiClient := mkClient {
  api_key : string;
  base_url : string;
  timeout : Z;
  debug : bool;
  rate_limit_info : nat;
  session : Session;
}.

(** The environment: the remote end (its answer may depend on what was
    sent before), the interpreter's digit limit for [int], the headers a
    new [requests.Session] starts with, the requests dispatched so far
    (oldest first), the dict objects allocated so far (address = index)
    and the lines printed. *)
Record world := mkWorld {
  remote : list request -> request -> outcome;
  int_max_str_digits : nat;
  default_headers : gmap string string;
  sent : list request;
  heap : list (gmap string Z);
  stdout : list debug_line;
}.

Record state := mkState {
  self : PassBiClient;
  env : world;
}.

(** Computations of the methods: they read and update the client and the
    environment, and return or raise; the state survives a raise. *)
Definition M (A : Type) : Type := state -> result A * state.

Definition ret {A} (a : A) : M A := fun s => (Return a, s).
Definition raise {A} (e : exn) : M A := fun s => (Raise e, s).
Definition bind {A B} (m : M A) (k : A -> M B) : M B :=
  fun s => match m s with
           | (Return a, s') => k a s'
           | (Raise e, s') => (Raise e, s')
           end.

(** [try: m except: h]: [h] maps the exception raised to the one that
    leaves the block. *)
Definition try_except {A} (m : M A) (h : exn -> exn) : M A :=
  fun s => match m s with
           | (Return a, s') => (Return a, s')
           | (Raise e, s') => (Raise (h e), s')
           end.

Declare Scope py_scope.
Delimit Scope py_scope with py.
Notation "x <- m ;; k" := (bind m (fun x => k))
  (at level 100, m at next level, right associativity) : py_scope.
Notation "m ;;; k" := (bind m (fun _ => k))
  (at level 100, right associativity) : py_scope.
Local Open Scope py_scope.

Definition when (b : bool) (m : M unit) : M unit := if b then m else ret tt.

Definition print (l : debug_line) : M unit :=
  fun s =>
    let w := env s in
    (Return tt,
     mkState (self s)
       (mkWorld (remote w) (int_max_str_digits w) (default_headers w)
                (sent w) (heap w) (stdout w ++ [l]))).

Definition get_self : M PassBiClient := fun s => (Return (self s), s).

(** [self.session.request(...)]: one dispatch, recorded in [sent]. *)
Definition session_request (method url : string) (params json : pyval) (tmo : Z)
  : M response :=
  fun s =>
    let w := env s in
    let req := mkRequest method url params json tmo (session_headers (session (self s))) in
    let s' := mkState (self s)
                (mkWorld (remote w) (int_max_str_digits w) (default_headers w)
                         (sent w ++ [req]) (heap w) (stdout w)) in
    match remote w (sent w) req with
    | Responded r => (Return r, s')
    | TimedOut text => (Raise (RequestsTimeout text), s')
    | Failed text => (Raise (RequestException text), s')
    end.

(** [response.json()] *)
Definition response_json (r : response) : M pyval :=
  match resp_json r with
  | Decoded data => ret data
  | NotJSON (Some text) => raise (RequestException text)
  | NotJSON None => raise JSONDecodeError
  end.

(** [data.get(key)]: only a dict has the method. *)
Definition data_get (data : pyval) (key : string) : M pyval :=
  match data with
  | PDict d => ret (default PNone (d !! key))
  | _ => raise (AttributeError "get")
  end.

(** [int(headers.get(name, 0))]: the absent header gives [int(0)]. *)
Definition header_int (headers : gmap string string) (name : string) : M Z :=
  fun s =>
    match Headers.get headers name with
    | None => (Return 0%Z, s)
    | Some text =>
        match PyInt.of_string (int_max_str_digits (env s)) text with
        | Some n => (Return n, s)
        | None => (Raise (IntLiteralError text), s)
        end
    end.

(** [self.rate_limit_info = d] for a dict display [d]: a new dict object
    is allocated and the attribute is rebound to it. *)
Definition set_rate_limit_info (d : gmap string Z) : M unit :=
  fun s =>
    let w := env s in
    let c := self s in
    (Return tt,
     mkState
       (mkClient (api_key c) (base_url c) (timeout c) (debug c)
                 (length (heap w)) (session c))
       (mkWorld (remote w) (int_max_str_digits w) (default_headers w)
                (sent w) (heap w ++ [d]) (stdout w))).

(** ** [class PassBiClient] *)

Definition dquote : string := String (ascii_of_nat 34) EmptyString.

(** [PassBiClient.__init__].  An argument left out is [None]; the
    defaults are those of the signature. *)
Definition PassBiClient_init
    (key : string) (url : option string) (tmo : option Z) (dbg : option bool)
    (w : world) : result PassBiClient * world :=
  let url := default "https://api.passbi.com" url in
  let tmo := default 30%Z tmo in
  let dbg := default false dbg in
  if negb (truthy (PStr key)) then
    (Raise (ValueError "API key is required"), w)
  else if negb (Str.startswith "pk_" key) then
    (Raise (ValueError ("Invalid API key format. API key must start with "
                        ++ dquote ++ "pk_" ++ dquote)), w)
  else
    let hdrs :=
      Headers.set "User-Agent" "PassBi-Python-SDK/2.0.0"
        (Headers.set "Content-Type" "application/json"
           (Headers.set "Authorization" ("Bearer " ++ key) (default_headers w))) in
    (Return (mkClient key (Str.rstrip "/" url) tmo dbg
                      (length (heap w)) (mkSession hdrs false)),
     mkWorld (remote w) (int_max_str_digits w) (default_headers w)
             (sent w) (heap w ++ [∅]) (stdout w)).

(** [PassBiClient._extract_rate_limit_info] *)
Definition _extract_rate_limit_info (headers : gmap string string) : M unit :=
  limit_second <- header_int headers "X-RateLimit-Limit-Second" ;;
  remaining_second <- header_int headers "X-RateLimit-Remaining-Second" ;;
  limit_day <- header_int headers "X-RateLimit-Limit-Day" ;;
  remaining_day <- header_int headers "X-RateLimit-Remaining-Day" ;;
  limit_month <- header_int headers "X-RateLimit-Limit-Month" ;;
  remaining_month <- header_int headers "X-RateLimit-Remaining-Month" ;;
  set_rate_limit_info
    (<["limit_second" := limit_second]>
     (<["remaining_second" := remaining_second]>
      (<["limit_day" := limit_day]>
       (<["remaining_day" := remaining_day]>
        (<["limit_month" := limit_month]>
         (<["remaining_month" := remaining_month]> ∅)))))).

(** The two [except] clauses of [_request]. *)
Definition request_handler (e : exn) : exn :=
  match e with
  | RequestsTimeout _ =>
      PassBiErr (mkPassBiError (PStr "Request timeout") 408 (PStr "timeout") PNone)
  | RequestException text =>
      PassBiErr (mkPassBiError (PStr ("Request failed: " ++ text)) 0
                               (PStr "request_failed") PNone)
  | _ => e
  end.

(** The part of the [try] block of [_request] that follows the call. *)
Definition handle_response (response : response) : M pyval :=
  _extract_rate_limit_info (resp_headers response) ;;;
  data <- response_json response ;;
  if negb (ok response) then
    msg <- data_get data "message" ;;
    err <- data_get data "error" ;;
    code <- data_get data "error" ;;
    raise (PassBiErr
             (mkPassBiError
                (py_or msg (py_or err (PStr "API request failed")))
                (resp_status response) code data))
  else ret data.

(** [PassBiClient._request] *)
Definition _request (method endpoint : string) (params json : pyval) : M pyval :=
  c <- get_self ;;
  let url := base_url c ++ endpoint in
  when (debug c)
    (print (DbgRequest method url) ;;;
     when (truthy params) (print (DbgParams params)) ;;;
     when (truthy json) (print (DbgBody json))) ;;;
  try_except
    (response <- session_request method url params json (timeout c) ;;
     handle_response response)
    request_handler.

(** [PassBiClient.get_rate_limit_info]: the reference held by the client. *)
Definition get_rate_limit_info : M nat :=
  c <- get_self ;; ret (rate_limit_info c).

(** [PassBiClient.search_routes] *)
Definition search_routes (from_coords to_coords : string) : M pyval :=
  if negb (truthy (PStr from_coords)) || negb (truthy (PStr to_coords)) then
    raise (ValueError "Both from_coords and to_coords are required")
  else
    _request "GET" "/v2/route-search"
      (PDict (<["from" := PStr from_coords]> (<["to" := PStr to_coords]> ∅)))
      PNone.

(** [PassBiClient.find_nearby_stops]; [radius] left out is [None]. *)
Definition find_nearby_stops (lat lon : pyval) (radius : option Z) : M pyval :=
  let radius := default 500%Z radius in
  if is_none lat || is_none lon then
    raise (ValueError "Both lat and lon are required")
  else
    _request "GET" "/v2/stops/nearby"
      (PDict (<["lat" := lat]> (<["lon" := lon]> (<["radius" := PInt radius]> ∅))))
      PNone.

(** [PassBiClient.list_routes]; [mode] and [agency] are [Optional[str]],
    [limit] left out is [None]. *)
Definition list_routes (mode agency : option string) (limit : option Z) : M pyval :=
  let limit := default 100%Z limit in
  let params : gmap string pyval := <["limit" := PInt limit]> ∅ in
  let params :=
    match mode with
    | Some m => if truthy (PStr m) then <["mode" := PStr m]> params else params
    | None => params
    end in
  let params :=
    match agency with
    | Some a => if truthy (PStr a) then <["agency" := PStr a]> params else params
    | None => params
    end in
  _request "GET" "/v2/routes/list" (PDict params) PNone.

(** [PassBiClient.get_partner_info] *)
Definition get_partner_info : M pyval :=
  _request "GET" "/dashboard/me" PNone PNone.

(** [PassBiClient.list_api_keys] *)
Definition list_api_keys : M pyval :=
  _request "GET" "/dashboard/api-keys" PNone PNone.

(** A [datetime], by what the client observes of it: its [isoformat()]
    text (a datetime object is always truthy). *)
Record datetime := mkDatetime { isoformat : string }.

(** [PassBiClient.create_api_key]; an argument left out is [None] and
    takes the default of the signature. *)
Definition create_api_key (name : string) (description : option string)
    (scopes : option (list string)) (expires_at : option datetime) : M pyval :=
  let description := default "" description in
  if negb (truthy (PStr name)) then
    raise (ValueError "API key name is required")
  else
    let scopes := default ["read:routes"] scopes in
    let body : gmap string pyval :=
      <["name" := PStr name]>
        (<["description" := PStr description]>
           (<["scopes" := PList (PStr <$> scopes)]> ∅)) in
    let body :=
      match expires_at with
      | Some t => <["expires_at" := PStr (isoformat t)]> body
      | None => body
      end in
    _request "POST" "/dashboard/api-keys" PNone (PDict body).

(** [PassBiClient.revoke_api_key] *)
Definition revoke_api_key (key_id : string) : M pyval :=
  if negb (truthy (PStr key_id)) then
    raise (ValueError "API key ID is required")
  else
    _request "DELETE" ("/dashboard/api-keys/" ++ key_id) PNone PNone.

(** [PassBiClient.get_usage_stats] *)
Definition get_usage_stats (days : option Z) : M pyval :=
  let days := default 30%Z days in
  _request "GET" "/dashboard/usage" (PDict (<["days" := PInt days]> ∅)) PNone.

(** [PassBiClient.get_quota_usage] *)
Definition get_quota_usage : M pyval :=
  _request "GET" "/dashboard/quota" PNone PNone.

(** [PassBiClient.health_check] *)
Definition health_check : M pyval :=
  _request "GET" "/health" PNone PNone.

(** [PassBiClient.close] *)
Definition close : M unit :=
  fun s =>
    let c := self s in
    (Return tt,
     mkState
       (mkClient (api_key c) (base_url c) (timeout c) (debug c) (rate_limit_info c)
                 (mkSession (session_headers (session c)) true))
       (env s)).

(** ** [class PassBiError] *)

(** [PassBiError.is_rate_limit_error] *)
Definition is_rate_limit_error (e : PassBiError) : bool :=
  in_strs (error_code e)
    ["rate_limit_exceeded"; "daily_quota_exceeded"; "monthly_quota_exceeded"].

(** [PassBiError.is_auth_error] *)
Definition is_auth_error (e : PassBiError) : bool :=
  existsb (Z.eqb (status_code e)) [401%Z; 403%Z].

(** ** Vocabulary of the statements *)

(** The tracker's fields and the header each one is read from, in the
    order of the dict display. *)
Definition rate_limit_fields : list (string * string) :=
  [ ("limit_second", "X-RateLimit-Limit-Second");
    ("remaining_second", "X-RateLimit-Remaining-Second");
    ("limit_day", "X-RateLimit-Limit-Day");
    ("remaining_day", "X-RateLimit-Remaining-Day");
    ("limit_month", "X-RateLimit-Limit-Month");
    ("remaining_month", "X-RateLimit-Remaining-Month") ].

(** The header [name] is absent, or holds an integer literal. *)
Definition header_numeric (maxd : nat) (h : gmap string string) (name : string) : bool :=
  match Headers.get h name with
  | None => true
  | Some text => bool_decide (is_Some (PyInt.of_string maxd text))
  end.

(** Every rate-limit header that is present holds an integer literal. *)
Definition headers_numeric (maxd : nat) (h : gmap string string) : bool :=
  forallb (fun fn => header_numeric maxd h fn.2) rate_limit_fields.

(** The integer of the header [name]; 0 when the header is absent or
    does not hold an integer literal. *)
Definition header_or_zero (maxd : nat) (h : gmap string string) (name : string) : Z :=
  match Headers.get h name with
  | None => 0%Z
  | Some text => default 0%Z (PyInt.of_string maxd text)
  end.

(** The record with every field at [header_or_zero]. *)
Definition rate_limits (maxd : nat) (h : gmap string string) : gmap string Z :=
  foldr (fun fn d => <[fn.1 := header_or_zero maxd h fn.2]> d) ∅ rate_limit_fields.

(** The dict object the client's [rate_limit_info] refers to. *)
Definition snapshot (s : state) : option (gmap string Z) :=
  heap (env s) !! rate_limit_info (self s).

(** The call [_request] makes on the session. *)
Definition request_of (c : PassBiClient) (method endpoint : string) (params json : pyval)
  : request :=
  mkRequest method (base_url c ++ endpoint) params json (timeout c)
            (session_headers (session c)).

(** The lines [_request] prints. *)
Definition debug_lines (c : PassBiClient) (method endpoint : string) (params json : pyval)
  : list debug_line :=
  if debug c then
    DbgRequest method (base_url c ++ endpoint)
      :: (if truthy params then [DbgParams params] else [])
      ++ (if truthy json then [DbgBody json] else [])
  else [].

(** The state once [_request] has dispatched its call. *)
Definition dispatched (s : state) (method endpoint : string) (params json : pyval) : state :=
  let w := env s in
  mkState (self s)
    (mkWorld (remote w) (int_max_str_digits w) (default_headers w)
             (sent w ++ [request_of (self s) method endpoint params json])
             (heap w)
             (stdout w ++ debug_lines (self s) method endpoint params json)).

(** The state once the tracker has been rebound to a new dict [d]. *)
Definition rebound (d : gmap string Z) (s : state) : state :=
  (set_rate_limit_info d s).2.

(** What the server answers to the call [_request] makes from [s]. *)
Definition answer (s : state) (method endpoint : string) (params json : pyval) : outcome :=
  remote (env s) (sent (env s)) (request_of (self s) method endpoint params json).

(** The message of claim C1, read literally: the field [message] if the
    body has it, else the field [error] if the body has it, else the
    fallback. *)
Definition message_if_present (body : gmap string pyval) : pyval :=
  match body !! "message" with
  | Some m => m
  | None =>
      match body !! "error" with
      | Some e => e
      | None => PStr "API request failed"
      end
  end.

(** The message the code builds: the first truthy one of the two fields. *)
Definition message_if_truthy (body : gmap string pyval) : pyval :=
  py_or (default PNone (body !! "message"))
        (py_or (default PNone (body !! "error")) (PStr "API request failed")).

(** What [_request] returns or raises for a response whose rate-limit
    headers were read without error. *)
Definition reply (r : response) : result pyval :=
  match resp_json r with
  | Decoded data =>
      if ok r then Return data
      else
        match data with
        | PDict body =>
            Raise (PassBiErr (mkPassBiError (message_if_truthy body) (resp_status r)
                                            (default PNone (body !! "error")) data))
        | _ => Raise (AttributeError "get")
        end
  | NotJSON (Some text) => Raise (request_handler (RequestException text))
  | NotJSON None => Raise JSONDecodeError
  end.

(** The error of claim C1, read literally, for a response [r] whose body
    decodes to the dict [body]. *)
Definition error_if_present (r : response) (body : gmap string pyval) : PassBiError :=
  mkPassBiError (message_if_present body) (resp_status r)
                (default PNone (body !! "error")) (PDict body).

(** What a filter argument of [list_routes] contributes to the query:
    its value when it is a non-empty string, nothing otherwise. *)
Definition filter_value (arg : option string) : option pyval :=
  match arg with
  | Some x => if truthy (PStr x) then Some (PStr x) else None
  | None => None
  end.

(** A small environment for examples: a server with one fixed answer. *)
Definition world_answering (o : outcome) : world :=
  mkWorld (fun _ _ => o) 4300 ∅ [] [] [].

Definition demo_client : PassBiClient :=
  mkClient "pk_test_1" "http://localhost:8080" 30 false 0 (mkSession ∅ false).

(** The state of [demo_client] right after construction, facing a server
    with one fixed answer. *)
Definition demo_state (o : outcome) : state :=
  let w := world_answering o in
  mkState demo_client
    (mkWorld (remote w) (int_max_str_digits w) (default_headers w) (sent w) [∅] (stdout w)).

(** Answers used in the examples. *)
Module Demo.

Definition bad_request_body : gmap string pyval :=
  <["error" := PStr "bad_request"]> (<["message" := PStr "invalid coordinates"]> ∅).

(** Status 400 with an error code and a message. *)
Definition bad_request : response :=
  mkResponse 400 ∅ (Decoded (PDict bad_request_body)).

Definition empty_message_body : gmap string pyval :=
  <["error" := PStr "bad_request"]> (<["message" := PStr ""]> ∅).

(** Status 400 whose message is the empty string. *)
Definition empty_message : response :=
  mkResponse 400 ∅ (Decoded (PDict empty_message_body)).

(** Status 500 whose body is a JSON array. *)
Definition array_body : response :=
  mkResponse 500 ∅ (Decoded (PList [PStr "internal error"])).

(** A rate-limit header that is not an integer literal. *)
Definition unlimited_day : gmap string string :=
  Headers.set "X-RateLimit-Limit-Day" "unlimited" ∅.

Definition bad_request_unlimited : response :=
  mkResponse 400 unlimited_day (Decoded (PDict bad_request_body)).

Definition routes_body : pyval :=
  PDict (<["routes" := PDict (<["direct" := PList []]> ∅)]> ∅).

(** Status 200 with a route payload and two rate-limit headers. *)
Definition routes_found : response :=
  mkResponse 200
    (Headers.set "X-RateLimit-Limit-Day" "1000"
       (Headers.set "X-RateLimit-Remaining-Day" "999" ∅))
    (Decoded routes_body).

Definition routes_found_unlimited : response :=
  mkResponse 200 unlimited_day (Decoded routes_body).

Definition from_coords : string := "14.7167,-17.4677".
Definition to_coords : string := "14.6928,-17.4467".

End Demo.

(** * The rest of the client, and the test script *)

(** ** Context manager *)

(** [PassBiClient.__enter__]: returns the client itself. *)
Definition __enter__ : M PassBiClient := get_self.

(** [PassBiClient.__exit__]: closes, whatever the three arguments are,
    and returns [None]. *)
Definition __exit__ : M unit := close.

(** [with client: body], for a client that exists already: [__enter__],
    then the body, then [__exit__] whether the body returned or raised.
    [__exit__] returns [None], so what the body raised is raised again. *)
Definition with_client {A} (body : M A) : M A :=
  fun s =>
    match __enter__ s with
    | (Return _, s1) =>
        let '(r, s2) := body s1 in
        match __exit__ s2 with
        | (Return _, s3) => (r, s3)
        | (Raise e, s3) => (Raise e, s3)
        end
    | (Raise e, s1) => (Raise e, s1)
    end.

(** ** The text of a [PassBiError] *)

(** [format(v, empty spec)], as an f-string field does it, for the
    objects whose text is determined here; a float, a list and a dict
    have a text too, which is not represented ([None]). *)
Definition py_format (v : pyval) : option string :=
  match v with
  | PNone => Some "None"
  | PBool true => Some "True"
  | PBool false => Some "False"
  | PInt n => Some (pretty n)
  | PStr s => Some s
  | PFloat _ | PList _ | PDict _ => None
  end.

(** How [str(e)] ends: with a text, with the [TypeError] of a [__str__]
    that returned something else than a [str], or with a text that is
    not represented. *)
Inductive str_outcome :=
| Text (s : string)
| StrTypeError
| TextNotRepresented.

(** [PassBiError.__str__], through [str(e)]. *)
Definition PassBiError_str (e : PassBiError) : str_outcome :=
  if truthy (error_code e) then
    match py_format (error_code e), py_format (message e) with
    | Some c, Some m => Text ("[" ++ c ++ "] " ++ m)
    | _, _ => TextNotRepresented
    end
  else
    match message e with
    | PStr m => Text m
    | _ => StrTypeError
    end.

(** ** Sequences of calls *)

(** A call of a public method that talks to the server, or of
    [get_rate_limit_info]. *)
Inductive call :=
| SearchRoutes (from_coords to_coords : string)
| FindNearbyStops (lat lon : pyval) (radius : option Z)
| ListRoutes (mode agency : option string) (limit : option Z)
| GetPartnerInfo
| ListApiKeys
| CreateApiKey (name : string) (description : option string)
               (scopes : option (list string)) (expires_at : option datetime)
| RevokeApiKey (key_id : string)
| GetUsageStats (days : option Z)
| GetQuotaUsage
| HealthCheck
| GetRateLimitInfo.

(** The state a call leaves, whether it returned or raised. *)
Definition perform (c : call) (s : state) : state :=
  match c with
  | SearchRoutes f t => (search_routes f t s).2
  | FindNearbyStops lat lon radius => (find_nearby_stops lat lon radius s).2
  | ListRoutes mode agency limit => (list_routes mode agency limit s).2
  | GetPartnerInfo => (get_partner_info s).2
  | ListApiKeys => (list_api_keys s).2
  | CreateApiKey name description scopes expires_at =>
      (create_api_key name description scopes expires_at s).2
  | RevokeApiKey key_id => (revoke_api_key key_id s).2
  | GetUsageStats days => (get_usage_stats days s).2
  | GetQuotaUsage => (get_quota_usage s).2
  | HealthCheck => (health_check s).2
  | GetRateLimitInfo => (get_rate_limit_info s).2
  end.

(** The calls of a list, one after the other; a call that raised does
    not stop the next one (the caller caught the exception). *)
Definition run (cs : list call) (s : state) : state :=
  foldl (fun s c => perform c s) s cs.

(** The call has arguments its method accepts and reaches the server. *)
Definition reaches_server (c : call) : bool :=
  match c with
  | SearchRoutes f t => truthy (PStr f) && truthy (PStr t)
  | FindNearbyStops lat lon _ => negb (is_none lat) && negb (is_none lon)
  | CreateApiKey name _ _ _ => truthy (PStr name)
  | RevokeApiKey key_id => truthy (PStr key_id)
  | GetRateLimitInfo => false
  | ListRoutes _ _ _ | GetPartnerInfo | ListApiKeys | GetUsageStats _
  | GetQuotaUsage | HealthCheck => true
  end.

(** The tracker is the empty record of construction, or has exactly the
    six fields. *)
Definition tracker_shape (s : state) : Prop :=
  exists d : gmap string Z,
    snapshot s = Some d /\ (d = ∅ \/ dom d = list_to_set (rate_limit_fields.*1)).

(** [n] copies of a character. *)
Fixpoint copies (n : nat) (ch : ascii) : string :=
  match n with
  | 0 => EmptyString
  | S n' => String ch (copies n' ch)
  end.

(** The text of the header [name], when the header is present and does
    not hold an integer literal. *)
Definition non_numeric_text (maxd : nat) (h : gmap string string) (name : string)
  : option string :=
  match Headers.get h name with
  | Some text =>
      match PyInt.of_string maxd text with
      | Some _ => None
      | None => Some text
      end
  | None => None
  end.

(** The text of the first rate-limit header, in the order of the dict
    display, that does not hold an integer literal. *)
Definition first_non_numeric (maxd : nat) (h : gmap string string) : option string :=
  head (omap (fun fn => non_numeric_text maxd h fn.2) rate_limit_fields).

(** The client with its debug flag set to [b]. *)
Definition with_debug (b : bool) (s : state) : state :=
  let c := self s in
  mkState (mkClient (api_key c) (base_url c) (timeout c) b (rate_limit_info c) (session c))
          (env s).

(** Further answers used in the examples. *)
Module Sample.

(** A status just above the failing range, and the last one inside it. *)
Definition status_600 : response := mkResponse 600 ∅ (Decoded Demo.routes_body).
Definition status_599 : response := mkResponse 599 ∅ (Decoded Demo.routes_body).

(** A gateway's answer whose body is no JSON, as requests 2.27 and later
    report it. *)
Definition bad_gateway : response := mkResponse 502 ∅ (NotJSON (Some "Expecting value")).

(** The key was created, but a rate-limit header is malformed. *)
Definition created_unlimited : response :=
  mkResponse 201 Demo.unlimited_day (Decoded Demo.routes_body).

(** Status 429 with an empty JSON object. *)
Definition too_many_requests : response := mkResponse 429 ∅ (Decoded (PDict ∅)).

Definition forbidden_body : gmap string pyval := {["error" := PStr "forbidden"]}.

(** Status 403 with an error code and no message. *)
Definition forbidden : response := mkResponse 403 ∅ (Decoded (PDict forbidden_body)).

End Sample.

(** ** The test script [scripts/test_sdk_python.py] *)

(** The script builds its client with [debug=False], so all that is
    printed comes from the script; its lines are kept by the values they
    format. *)
Module Script.

(** What a test function can raise: an exception of the client, the
    [KeyError] of a dict subscript, or a plain [Exception]. *)
Inductive error :=
| ClientError (e : exn)
| KeyError (key : string)
| PlainException (msg : string).

Inductive outcome (A : Type) :=
| Returned (a : A)
| Raised (e : error).
Arguments Returned {A} a.
Arguments Raised {A} e.

Inductive console_line :=
| Testing (name : string)
| Pass
| Fail
| ErrorLine (e : error)
| DailyRemaining (remaining limit : Z)
| CorrectlyHandledMessage (m : pyval)
| CorrectlyHandled (e : exn).

Record st := mkSt {
  client : state;
  console : list console_line;
}.

Definition T (A : Type) : Type := st -> outcome A * st.

Definition say (l : console_line) (s : st) : st :=
  mkSt (client s) (console s ++ [l]).

(** What the three test functions below return: the dict
    [{'handled': True}], or the tracker the client handed out. *)
Inductive value :=
| Handled
| RateLimitInfo (ref : nat).

(** The dict [test_endpoint] returns; [error_of] holds the exception
    whose text the script stores under [error]. *)
Record test_result := mkResult {
  name : string;
  success : bool;
  result : option value;
  error_of : option error;
}.

(** [test_endpoint(name, fn)]: every exception of [fn] is caught. *)
Definition test_endpoint (nm : string) (fn : T value) (s : st) : test_result * st :=
  match fn (say (Testing nm) s) with
  | (Returned v, s') => (mkResult nm true (Some v) None, say Pass s')
  | (Raised e, s') => (mkResult nm false None (Some e), say (ErrorLine e) (say Fail s'))
  end.

(** [test_rate_limit]: the two subscripts are evaluated in the order of
    the f-string, [remaining_day] first.  (A reference always has its
    object; the last case does not arise.) *)
Definition test_rate_limit : T value :=
  fun s =>
    match get_rate_limit_info (client s) with
    | (Return ref, cs) =>
        match heap (env cs) !! ref with
        | Some info =>
            match info !! "remaining_day" with
            | None => (Raised (KeyError "remaining_day"), mkSt cs (console s))
            | Some remaining =>
                match info !! "limit_day" with
                | None => (Raised (KeyError "limit_day"), mkSt cs (console s))
                | Some limit =>
                    (Returned (RateLimitInfo ref),
                     say (DailyRemaining remaining limit) (mkSt cs (console s)))
                end
            end
        | None => (Raised (KeyError "remaining_day"), mkSt cs (console s))
        end
    | (Raise e, cs) => (Raised (ClientError e), mkSt cs (console s))
    end.


(** [test_missing_params]: a [ValueError] (of any kind) is handled. *)
Definition test_missing_params : T value :=
  fun s =>
    match search_routes "" "" (client s) with
    | (Return _, cs) =>
        (Raised (PlainException "Should have raised an error"), mkSt cs (console s))
    | (Raise e, cs) =>
        if is_ValueError e
        then (Returned Handled, say (CorrectlyHandled e) (mkSt cs (console s)))
        else (Raised (ClientError e), mkSt cs (console s))
    end.

(** The summary of [main]: [passed], [failed] and [total]. *)
Definition passed (results : list test_result) : nat :=
  length (filter (fun r => success r = true) results).

Definition failed (results : list test_result) : nat :=
  length (filter (fun r => success r = false) results).

Definition total (results : list test_result) : nat := length results.

(** The status the script ends with: [sys.exit(1)] when a test failed. *)
Definition exit_status (results : list test_result) : Z :=
  if Nat.ltb 0 (failed results) then 1%Z else 0%Z.

End Script.

(** The server never answers: every call ends in a transport failure. *)
Definition never_answers (w : world) : Prop :=
  forall history req,
    match remote w history req with
    | Responded _ => False
    | TimedOut _ | Failed _ => True
    end.

(** * Properties *)

(** ** The model at a glance *)

Example int_plain : PyInt.of_string 4300 "120" = Some 120%Z.
Proof. reflexivity. Qed.

Example int_padded_signed_grouped : PyInt.of_string 4300 " -1_000 " = Some (-1000)%Z.
Proof. reflexivity. Qed.

Example int_leading_zeros : PyInt.of_string 4300 "007" = Some 7%Z.
Proof. reflexivity. Qed.

Example int_rejects :
  PyInt.of_string 4300 <$> ["abc"; ""; "1.5"; "1__0"; "_1"; "1_"; "- 1"; "+"]
  = [None; None; None; None; None; None; None; None].
Proof. reflexivity. Qed.

Example rstrip_all_slashes : Str.rstrip "/" "http://h//" = "http://h".
Proof. reflexivity. Qed.

Example header_lookup_ignores_case :
  Headers.get (Headers.set "x-ratelimit-limit-day" "12" ∅) "X-RateLimit-Limit-Day"
  = Some "12".
Proof. reflexivity. Qed.

(** ** Reading one header *)

Section HeaderInt.
Variables (h : gmap string string) (name : string) (s : state).
Let maxd := int_max_str_digits (env s).

Lemma header_int_numeric :
  header_numeric maxd h name = true ->
  header_int h name s = (Return (header_or_zero maxd h name), s).
Proof.
  unfold header_numeric, header_int, header_or_zero, maxd.
  destruct (Headers.get h name) as [text|]; [|reflexivity].
  destruct (PyInt.of_string _ text) as [n|]; [reflexivity|].
  intros Hbad. apply bool_decide_eq_true in Hbad. destruct Hbad; discriminate.
Qed.

Lemma header_int_not_numeric :
  header_numeric maxd h name = false ->
  exists text, Headers.get h name = Some text
               /\ header_int h name s = (Raise (IntLiteralError text), s).
Proof.
  unfold header_numeric, header_int, maxd.
  destruct (Headers.get h name) as [text|]; [|discriminate].
  destruct (PyInt.of_string _ text) as [n|].
  - intros Hbad. apply bool_decide_eq_false in Hbad. destruct Hbad. eauto.
  - intros _. eauto.
Qed.
End HeaderInt.

(** ** Extraction of the rate limits *)

Lemma headers_numeric_all maxd h :
  headers_numeric maxd h = true ->
  Forall (fun fn => header_numeric maxd h fn.2 = true) rate_limit_fields.
Proof. intros H. apply Forall_forall. intros fn Hin. 
  unfold headers_numeric in H. rewrite forallb_forall in H. apply H.
  by apply list_elem_of_In. Qed.

Lemma extract_numeric h s :
  headers_numeric (int_max_str_digits (env s)) h = true ->
  _extract_rate_limit_info h s
  = (Return tt, rebound (rate_limits (int_max_str_digits (env s)) h) s).
Proof.
  intros Hnum. apply headers_numeric_all in Hnum.
  repeat (apply Forall_cons in Hnum as [? Hnum]). simpl in *.
  unfold _extract_rate_limit_info, bind.
  rewrite !header_int_numeric by assumption.
  reflexivity.
Qed.

Lemma extract_not_numeric h s :
  headers_numeric (int_max_str_digits (env s)) h = false ->
  exists text, _extract_rate_limit_info h s = (Raise (IntLiteralError text), s).
Proof.
  unfold headers_numeric, rate_limit_fields, forallb. simpl.
  unfold _extract_rate_limit_info, bind.
  repeat
    match goal with
    | |- context [header_numeric ?m h ?n && _] =>
        let E := fresh "E" in
        destruct (header_numeric m h n) eqn:E;
        [ rewrite (header_int_numeric h n s E); simpl
        | intros _; destruct (header_int_not_numeric h n s E) as (text & _ & ->); eauto ]
    end.
  discriminate.
Qed.

(** ** The shared request *)

Lemma request_dispatch method endpoint params json s :
  _request method endpoint params json s
  = match answer s method endpoint params json with
    | Responded r =>
        try_except (handle_response r) request_handler
                   (dispatched s method endpoint params json)
    | TimedOut text =>
        (Raise (request_handler (RequestsTimeout text)),
         dispatched s method endpoint params json)
    | Failed text =>
        (Raise (request_handler (RequestException text)),
         dispatched s method endpoint params json)
    end.
Proof.
  unfold _request, answer, dispatched, debug_lines, request_of.
  destruct s as [c w]. unfold bind, get_self, try_except, session_request.
  cbn [self env].
  destruct (debug c), (truthy params), (truthy json);
    cbn -[handle_response request_handler];
    rewrite <- ?app_assoc, ?app_nil_r; cbn [app];
    destruct (remote w (sent w) _); reflexivity.
Qed.

Lemma handle_response_numeric r s :
  headers_numeric (int_max_str_digits (env s)) (resp_headers r) = true ->
  try_except (handle_response r) request_handler s
  = (reply r, rebound (rate_limits (int_max_str_digits (env s)) (resp_headers r)) s).
Proof.
  intros Hnum. unfold try_except, handle_response, bind at 1.
  rewrite (extract_numeric _ _ Hnum).
  unfold reply, response_json, bind.
  destruct (resp_json r) as [data | [text|]]; try reflexivity.
  destruct (ok r); [reflexivity|]. cbn [negb].
  destruct data; reflexivity.
Qed.

Lemma handle_response_not_numeric r s :
  headers_numeric (int_max_str_digits (env s)) (resp_headers r) = false ->
  exists text,
    try_except (handle_response r) request_handler s = (Raise (IntLiteralError text), s).
Proof.
  intros Hnum. destruct (extract_not_numeric _ _ Hnum) as [text Hx].
  exists text. unfold try_except, handle_response, bind at 1. rewrite Hx. reflexivity.
Qed.

Lemma request_responded method endpoint params json s r :
  answer s method endpoint params json = Responded r ->
  headers_numeric (int_max_str_digits (env s)) (resp_headers r) = true ->
  _request method endpoint params json s
  = (reply r,
     rebound (rate_limits (int_max_str_digits (env s)) (resp_headers r))
             (dispatched s method endpoint params json)).
Proof.
  intros Hans Hnum. rewrite request_dispatch, Hans.
  apply (handle_response_numeric r (dispatched s method endpoint params json) Hnum).
Qed.

Lemma request_sent method endpoint params json s :
  sent (env (_request method endpoint params json s).2)
  = (sent (env s) ++ [request_of (self s) method endpoint params json])%list.
Proof.
  rewrite request_dispatch.
  destruct (answer s method endpoint params json) as [r|text|text]; try reflexivity.
  destruct (headers_numeric (int_max_str_digits (env s)) (resp_headers r)) eqn:Hnum.
  - rewrite (handle_response_numeric r (dispatched s method endpoint params json) Hnum).
    reflexivity.
  - destruct (handle_response_not_numeric r (dispatched s method endpoint params json) Hnum)
      as [text ->].
    reflexivity.
Qed.

Lemma request_heap method endpoint params json s :
  heap (env (_request method endpoint params json s).2) = heap (env s)
  \/ exists d, heap (env (_request method endpoint params json s).2) = (heap (env s) ++ [d])%list.
Proof.
  rewrite request_dispatch.
  destruct (answer s method endpoint params json) as [r|text|text]; try (left; reflexivity).
  destruct (headers_numeric (int_max_str_digits (env s)) (resp_headers r)) eqn:Hnum.
  - rewrite (handle_response_numeric r (dispatched s method endpoint params json) Hnum).
    right. eexists. reflexivity.
  - destruct (handle_response_not_numeric r (dispatched s method endpoint params json) Hnum)
      as [text ->].
    left. reflexivity.
Qed.

(** ** The message of an error response *)

Lemma message_if_truthy_cases body :
  message_if_truthy body =
    match body !! "message", body !! "error" with
    | Some m, Some e =>
        if truthy m then m else if truthy e then e else PStr "API request failed"
    | Some m, None => if truthy m then m else PStr "API request failed"
    | None, Some e => if truthy e then e else PStr "API request failed"
    | None, None => PStr "API request failed"
    end.
Proof.
  unfold message_if_truthy, py_or.
  destruct (body !! "message") as [m|], (body !! "error") as [e|]; reflexivity.
Qed.

(** Where the fields that are present are truthy (a non-empty string,
    say), the first truthy field is the first field present. *)
Lemma message_if_truthy_present body :
  (forall m, body !! "message" = Some m -> truthy m = true) ->
  (forall e, body !! "error" = Some e -> truthy e = true) ->
  message_if_truthy body = message_if_present body.
Proof.
  intros Hm He. rewrite message_if_truthy_cases. unfold message_if_present.
  destruct (body !! "message") as [m|], (body !! "error") as [e|];
    rewrite ?(Hm _ eq_refl), ?(He _ eq_refl); reflexivity.
Qed.

(** C1 (as amended): a response with a failing status (400 to 599), whose
    rate-limit headers, where present, hold integer literals and whose
    body decodes to a JSON object, makes the request fail with a
    [PassBiError]: its status code is the response's, its message is the
    body's [message] if that is truthy, else the body's [error] if that is
    truthy, else the text API request failed; its error code is the
    body's [error] ([None] when absent); its details are the body. *)
Theorem request_failing_status method endpoint params json s r body :
  answer s method endpoint params json = Responded r ->
  ok r = false ->
  resp_json r = Decoded (PDict body) ->
  headers_numeric (int_max_str_digits (env s)) (resp_headers r) = true ->
  exists s',
    _request method endpoint params json s
    = (Raise (PassBiErr
                (mkPassBiError
                   (match body !! "message", body !! "error" with
                    | Some m, Some e =>
                        if truthy m then m
                        else if truthy e then e else PStr "API request failed"
                    | Some m, None => if truthy m then m else PStr "API request failed"
                    | None, Some e => if truthy e then e else PStr "API request failed"
                    | None, None => PStr "API request failed"
                    end)
                   (resp_status r)
                   (default PNone (body !! "error"))
                   (PDict body))),
       s').
Proof.
  intros Hans Hfail Hbody Hnum.
  eexists. rewrite (request_responded _ _ _ _ _ _ Hans Hnum).
  unfold reply. rewrite Hbody, Hfail, message_if_truthy_cases. reflexivity.
Qed.

(** The scenario of the specification: the server answers status 400
    with the body [{error: bad_request, message: invalid coordinates}] to
    [search_routes('invalid', 'invalid')]. *)
Lemma request_failing_status_witness :
  exists s',
    search_routes "invalid" "invalid" (demo_state (Responded Demo.bad_request))
    = (Raise (PassBiErr
                (mkPassBiError (PStr "invalid coordinates") 400 (PStr "bad_request")
                               (PDict Demo.bad_request_body))),
       s').
Proof.
  exact (request_failing_status "GET" "/v2/route-search"
           (PDict (<["from" := PStr "invalid"]> (<["to" := PStr "invalid"]> ∅))) PNone
           (demo_state (Responded Demo.bad_request)) Demo.bad_request
           Demo.bad_request_body eq_refl eq_refl eq_refl eq_refl).
Defined.

(** C1 (as stated) fails in three ways: a [message] that is present but
    empty is passed over for [error]; a body that is a JSON array raises
    [AttributeError]; a rate-limit header that is no integer literal
    raises the [ValueError] of [int] before the body is looked at. *)
Lemma request_failing_status_counterexample :
  ((_request "GET" "/v2/route-search" PNone PNone
      (demo_state (Responded Demo.empty_message))).1
   = Raise (PassBiErr (mkPassBiError (PStr "bad_request") 400 (PStr "bad_request")
                                     (PDict Demo.empty_message_body)))
   /\ message (error_if_present Demo.empty_message Demo.empty_message_body) = PStr "")
  /\ (ok Demo.array_body = false
      /\ (_request "GET" "/v2/route-search" PNone PNone
            (demo_state (Responded Demo.array_body))).1
         = Raise (AttributeError "get"))
  /\ (ok Demo.bad_request_unlimited = false
      /\ (_request "GET" "/v2/route-search" PNone PNone
            (demo_state (Responded Demo.bad_request_unlimited))).1
         = Raise (IntLiteralError "unlimited")).
Proof.
  repeat split; vm_compute; reflexivity.
Qed.

(** ** Transport failures *)

(** C2: a timeout makes the request fail with a [PassBiError] of status
    408 and code timeout; any other transport failure makes it fail with
    status 0, code request_failed and a message that ends with the
    transport error's text.  In both cases exactly one call was
    dispatched, the error is raised, and the client is as it was. *)
Theorem request_transport_failure method endpoint params json s text :
  (answer s method endpoint params json = TimedOut text ->
   exists s',
     _request method endpoint params json s
     = (Raise (PassBiErr (mkPassBiError (PStr "Request timeout") 408 (PStr "timeout") PNone)),
        s')
     /\ sent (env s')
        = (sent (env s) ++ [request_of (self s) method endpoint params json])%list
     /\ self s' = self s /\ heap (env s') = heap (env s))
  /\ (answer s method endpoint params json = Failed text ->
      exists s',
        _request method endpoint params json s
        = (Raise (PassBiErr (mkPassBiError (PStr ("Request failed: " ++ text)) 0
                                           (PStr "request_failed") PNone)),
           s')
        /\ sent (env s')
           = (sent (env s) ++ [request_of (self s) method endpoint params json])%list
        /\ self s' = self s /\ heap (env s') = heap (env s)).
Proof.
  split; intros Hans; exists (dispatched s method endpoint params json);
    rewrite request_dispatch, Hans; repeat split; reflexivity.
Qed.

Lemma request_transport_failure_witness :
  (exists s',
     search_routes Demo.from_coords Demo.to_coords (demo_state (TimedOut "read timed out"))
     = (Raise (PassBiErr (mkPassBiError (PStr "Request timeout") 408 (PStr "timeout") PNone)),
        s')
     /\ length (sent (env s')) = 1)
  /\ (exists s',
        search_routes Demo.from_coords Demo.to_coords (demo_state (Failed "connection refused"))
        = (Raise (PassBiErr (mkPassBiError (PStr "Request failed: connection refused") 0
                                           (PStr "request_failed") PNone)),
           s')
        /\ length (sent (env s')) = 1).
Proof.
  split.
  - destruct (proj1 (request_transport_failure "GET" "/v2/route-search"
                       (PDict (<["from" := PStr Demo.from_coords]>
                                 (<["to" := PStr Demo.to_coords]> ∅)))
                       PNone (demo_state (TimedOut "read timed out")) "read timed out")
                eq_refl) as (s' & Hreq & Hsent & _).
    exists s'. split; [exact Hreq | rewrite Hsent; reflexivity].
  - destruct (proj2 (request_transport_failure "GET" "/v2/route-search"
                       (PDict (<["from" := PStr Demo.from_coords]>
                                 (<["to" := PStr Demo.to_coords]> ∅)))
                       PNone (demo_state (Failed "connection refused")) "connection refused")
                eq_refl) as (s' & Hreq & Hsent & _).
    exists s'. split; [exact Hreq | rewrite Hsent; reflexivity].
Defined.

(** ** Rate-limit extraction *)

Lemma rate_limits_lookup maxd h field name :
  (field, name) ∈ rate_limit_fields ->
  rate_limits maxd h !! field = Some (header_or_zero maxd h name).
Proof.
  unfold rate_limit_fields. rewrite !elem_of_cons, elem_of_nil.
  intros [H|[H|[H|[H|[H|[H|[]]]]]]]; injection H as -> ->; reflexivity.
Qed.

Lemma snapshot_rebound d s : snapshot (rebound d s) = Some d.
Proof.
  unfold snapshot, rebound, set_rate_limit_info. cbn.
  rewrite lookup_app_r by reflexivity. rewrite Nat.sub_diag. reflexivity.
Qed.

(** C3 (as amended): when every rate-limit header that is present holds
    an integer literal, extraction succeeds and binds the tracker to a
    record of exactly the six fields, each the integer of its own header
    when that is present and 0 when it is absent; when some header that
    is present holds no integer literal, extraction raises the
    [ValueError] of [int] and the tracker stays as it was. *)
Theorem extract_rate_limit_info_fields (h : gmap string string) (s : state) :
  (headers_numeric (int_max_str_digits (env s)) h = true ->
   exists d : gmap string Z,
     _extract_rate_limit_info h s = (Return tt, rebound d s)
     /\ snapshot (rebound d s) = Some d
     /\ dom d = list_to_set (rate_limit_fields.*1)
     /\ forall field name, (field, name) ∈ rate_limit_fields ->
          (Headers.get h name = None -> d !! field = Some 0%Z)
          /\ (forall text, Headers.get h name = Some text ->
                exists n, PyInt.of_string (int_max_str_digits (env s)) text = Some n
                          /\ d !! field = Some n))
  /\ (headers_numeric (int_max_str_digits (env s)) h = false ->
      exists text,
        _extract_rate_limit_info h s = (Raise (IntLiteralError text), s)).
Proof.
  split; [|apply extract_not_numeric].
  intros Hnum. exists (rate_limits (int_max_str_digits (env s)) h).
  split; [exact (extract_numeric h s Hnum)|].
  split; [apply snapshot_rebound|].
  split.
  { unfold rate_limits, rate_limit_fields. cbn [foldr fst snd fmap list_fmap].
    rewrite !dom_insert_L, dom_empty_L. cbn. set_solver. }
  intros field name Hin.
  rewrite (rate_limits_lookup _ _ _ _ Hin).
  pose proof (headers_numeric_all _ _ Hnum) as Hall.
  rewrite Forall_forall in Hall. specialize (Hall _ Hin). cbn in Hall.
  unfold header_numeric in Hall. unfold header_or_zero.
  destruct (Headers.get h name) as [text|].
  - split; [discriminate|]. intros ? [= <-].
    apply bool_decide_eq_true in Hall. destruct Hall as [n Hn].
    exists n. rewrite Hn. split; reflexivity.
  - split; [reflexivity | discriminate].
Qed.

Lemma extract_rate_limit_info_fields_witness :
  (exists d : gmap string Z,
     _extract_rate_limit_info (resp_headers Demo.routes_found)
                              (demo_state (Responded Demo.routes_found))
     = (Return tt, rebound d (demo_state (Responded Demo.routes_found)))
     /\ d !! "limit_day" = Some 1000%Z
     /\ d !! "remaining_day" = Some 999%Z
     /\ d !! "limit_second" = Some 0%Z)
  /\ (exists text,
        _extract_rate_limit_info Demo.unlimited_day (demo_state (Responded Demo.routes_found))
        = (Raise (IntLiteralError text), demo_state (Responded Demo.routes_found))).
Proof.
  split.
  - destruct (proj1 (extract_rate_limit_info_fields (resp_headers Demo.routes_found)
                       (demo_state (Responded Demo.routes_found))) eq_refl)
      as (d & Hx & _ & _ & Hfields).
    exists d. split; [exact Hx|].
    split; [|split].
    + destruct (proj2 (Hfields "limit_day" "X-RateLimit-Limit-Day"
                         ltac:(by repeat constructor)) "1000" eq_refl)
        as (n & Hn & Hd).
      vm_compute in Hn. injection Hn as <-. exact Hd.
    + destruct (proj2 (Hfields "remaining_day" "X-RateLimit-Remaining-Day"
                         ltac:(by repeat constructor)) "999" eq_refl)
        as (n & Hn & Hd).
      vm_compute in Hn. injection Hn as <-. exact Hd.
    + exact (proj1 (Hfields "limit_second" "X-RateLimit-Limit-Second"
                      ltac:(by repeat constructor)) eq_refl).
  - exact (proj2 (extract_rate_limit_info_fields Demo.unlimited_day
                    (demo_state (Responded Demo.routes_found))) eq_refl).
Defined.

(** C3 (as stated) fails on a header that holds no integer literal: the
    field is not set to 0; extraction raises and binds nothing. *)
Lemma extract_rate_limit_info_counterexample :
  Headers.get Demo.unlimited_day "X-RateLimit-Limit-Day" = Some "unlimited"
  /\ _extract_rate_limit_info Demo.unlimited_day (demo_state (Responded Demo.routes_found))
     = (Raise (IntLiteralError "unlimited"), demo_state (Responded Demo.routes_found))
  /\ snapshot (demo_state (Responded Demo.routes_found)) = Some ∅
  /\ rate_limits 4300 Demo.unlimited_day !! "limit_day" = Some 0%Z.
Proof.
  repeat split; vm_compute; reflexivity.
Qed.

(** ** Construction *)

Lemma truthy_str s : truthy (PStr s) = true <-> s <> "".
Proof.
  cbn. rewrite negb_true_iff. split.
  - intros H ->. discriminate.
  - intros H. apply String.eqb_neq. exact H.
Qed.

Lemma startswith_pk_nonempty key : Str.startswith "pk_" key = true -> key <> "".
Proof. intros H ->. discriminate. Qed.

(** C4: construction with a key that is empty or does not start with
    pk_ raises [ValueError] and leaves the environment untouched (nothing
    is dispatched); construction with a key that starts with pk_
    succeeds, again without dispatching anything. *)
Theorem init_validates_key key url tmo dbg w :
  (key = "" \/ Str.startswith "pk_" key = false ->
   exists msg, PassBiClient_init key url tmo dbg w = (Raise (ValueError msg), w))
  /\ (Str.startswith "pk_" key = true ->
      exists c w',
        PassBiClient_init key url tmo dbg w = (Return c, w')
        /\ api_key c = key /\ sent w' = sent w).
Proof.
  unfold PassBiClient_init. split.
  - intros Hbad. destruct (truthy (PStr key)) eqn:Hkey; cbn [negb].
    + destruct Hbad as [-> | ->]; [discriminate Hkey|]. cbn [negb]. eauto.
    + eauto.
  - intros Hpk. rewrite (proj2 (truthy_str key) (startswith_pk_nonempty key Hpk)), Hpk.
    cbn [negb]. eexists _, _. repeat split.
Qed.

Lemma init_validates_key_witness :
  (exists msg,
     PassBiClient_init "" None None None (world_answering (Failed "unreachable"))
     = (Raise (ValueError msg), world_answering (Failed "unreachable")))
  /\ (exists msg,
        PassBiClient_init "sk_live_1" None None None (world_answering (Failed "unreachable"))
        = (Raise (ValueError msg), world_answering (Failed "unreachable")))
  /\ (exists c w',
        PassBiClient_init "pk_live_1" None None None (world_answering (Failed "unreachable"))
        = (Return c, w')
        /\ api_key c = "pk_live_1" /\ sent w' = []).
Proof.
  split; [|split].
  - exact (proj1 (init_validates_key "" None None None
                    (world_answering (Failed "unreachable"))) (or_introl eq_refl)).
  - exact (proj1 (init_validates_key "sk_live_1" None None None
                    (world_answering (Failed "unreachable"))) (or_intror eq_refl)).
  - exact (proj2 (init_validates_key "pk_live_1" None None None
                    (world_answering (Failed "unreachable"))) eq_refl).
Defined.

(** ** Local validation *)

(** C5: [search_routes] with an empty coordinate, [find_nearby_stops]
    with [lat] or [lon] [None], [create_api_key] with an empty name and
    [revoke_api_key] with an empty id raise [ValueError], which is no
    [PassBiError], and leave client and environment as they were: nothing
    is dispatched and the tracker is the same object with the same
    content. *)
Theorem local_validation_raises (s : state) :
  (forall from_coords to_coords,
     from_coords = "" \/ to_coords = "" ->
     exists msg, search_routes from_coords to_coords s = (Raise (ValueError msg), s))
  /\ (forall lat lon radius,
        lat = PNone \/ lon = PNone ->
        exists msg, find_nearby_stops lat lon radius s = (Raise (ValueError msg), s))
  /\ (forall description scopes expires_at,
        exists msg,
          create_api_key "" description scopes expires_at s = (Raise (ValueError msg), s))
  /\ (exists msg, revoke_api_key "" s = (Raise (ValueError msg), s))
  /\ (forall msg, is_ValueError (ValueError msg) = true
                  /\ is_PassBiError (ValueError msg) = false).
Proof.
  repeat split.
  - intros f t [-> | ->]; unfold search_routes; cbn [truthy String.eqb negb orb].
    + eauto.
    + rewrite orb_true_r. eauto.
  - intros lat lon radius [-> | ->]; unfold find_nearby_stops; cbn [is_none orb].
    + eauto.
    + rewrite orb_true_r. eauto.
  - intros. unfold create_api_key. cbn [truthy String.eqb negb]. eauto.
  - unfold revoke_api_key. cbn [truthy String.eqb negb]. eauto.
Qed.

Lemma local_validation_raises_witness :
  (exists msg,
     search_routes "" "" (demo_state (Responded Demo.routes_found))
     = (Raise (ValueError msg), demo_state (Responded Demo.routes_found)))
  /\ (exists msg,
        find_nearby_stops PNone (PFloat (-17.5)%float) None
                          (demo_state (Responded Demo.routes_found))
        = (Raise (ValueError msg), demo_state (Responded Demo.routes_found)))
  /\ (exists msg,
        search_routes Demo.from_coords "" (demo_state (Responded Demo.routes_found))
        = (Raise (ValueError msg), demo_state (Responded Demo.routes_found))).
Proof.
  split; [|split].
  - exact (proj1 (local_validation_raises (demo_state (Responded Demo.routes_found)))
             "" "" (or_introl eq_refl)).
  - exact (proj1 (proj2 (local_validation_raises (demo_state (Responded Demo.routes_found))))
             PNone (PFloat (-17.5)%float) None (or_introl eq_refl)).
  - exact (proj1 (local_validation_raises (demo_state (Responded Demo.routes_found)))
             Demo.from_coords "" (or_intror eq_refl)).
Defined.

(** ** The error's two predicates *)

(** C6: [is_rate_limit_error] holds exactly when the error code is one
    of the three quota codes, and [is_auth_error] exactly when the status
    code is 401 or 403. *)
Theorem error_predicates (e : PassBiError) :
  (is_rate_limit_error e = true
   <-> error_code e = PStr "rate_limit_exceeded"
       \/ error_code e = PStr "daily_quota_exceeded"
       \/ error_code e = PStr "monthly_quota_exceeded")
  /\ (is_auth_error e = true <-> status_code e = 401%Z \/ status_code e = 403%Z).
Proof.
  split.
  - unfold is_rate_limit_error, in_strs.
    destruct (error_code e) as [| | | |c| |];
      try (split; [discriminate | intros [H|[H|H]]; discriminate H]).
    cbn [existsb]. rewrite !orb_true_iff, !String.eqb_eq. split.
    + intros [->|[->|[->|H]]]; [tauto | tauto | tauto | discriminate H].
    + intros [[= ->]|[[= ->]|[= ->]]]; tauto.
  - unfold is_auth_error. cbn [existsb].
    rewrite !orb_true_iff, !Z.eqb_eq. split.
    + intros [H|[H|H]]; [tauto | tauto | discriminate H].
    + tauto.
Qed.

(** ** The tracker *)

(** C7 (as amended): the snapshot of a freshly constructed client is the
    empty record; none of the six fields is present.  Reading it
    dispatches nothing and changes nothing. *)
Theorem fresh_client_snapshot key url tmo dbg w :
  Str.startswith "pk_" key = true ->
  exists c w',
    PassBiClient_init key url tmo dbg w = (Return c, w')
    /\ sent w' = sent w
    /\ get_rate_limit_info (mkState c w') = (Return (rate_limit_info c), mkState c w')
    /\ heap w' !! rate_limit_info c = Some (∅ : gmap string Z)
    /\ forall field name, (field, name) ∈ rate_limit_fields ->
         (∅ : gmap string Z) !! field = None.
Proof.
  intros Hpk. unfold PassBiClient_init.
  rewrite (proj2 (truthy_str key) (startswith_pk_nonempty key Hpk)), Hpk. cbn [negb].
  eexists _, _. split; [reflexivity|]. cbn [sent heap rate_limit_info].
  split; [reflexivity|]. split; [reflexivity|].
  split.
  - rewrite lookup_app_r by reflexivity. rewrite Nat.sub_diag. reflexivity.
  - intros. apply lookup_empty.
Qed.

Lemma fresh_client_snapshot_witness :
  exists c w',
    PassBiClient_init "pk_test_1" None None None (world_answering (Responded Demo.routes_found))
    = (Return c, w')
    /\ heap w' !! rate_limit_info c = Some (∅ : gmap string Z).
Proof.
  destruct (fresh_client_snapshot "pk_test_1" None None None
              (world_answering (Responded Demo.routes_found)) eq_refl)
    as (c & w' & Hinit & _ & _ & Hsnap & _).
  exists c, w'. split; [exact Hinit | exact Hsnap].
Defined.

(** C7 (as stated) fails: the snapshot of a fresh client has no field
    [limit_second], where the claim has it present and 0. *)
Lemma fresh_client_snapshot_counterexample :
  exists c w' d,
    PassBiClient_init "pk_test_1" None None None (world_answering (Responded Demo.routes_found))
    = (Return c, w')
    /\ snapshot (mkState c w') = Some d
    /\ d !! "limit_second" = None
    /\ d !! "limit_second" <> Some 0%Z.
Proof.
  eexists _, _, _. split; [reflexivity|]. split; [reflexivity|].
  split; [reflexivity | discriminate].
Qed.

Lemma request_heap_frame method endpoint params json s l (d : gmap string Z) :
  heap (env s) !! l = Some d ->
  heap (env (_request method endpoint params json s).2) !! l = Some d.
Proof.
  intros Hl.
  destruct (request_heap method endpoint params json s) as [-> | [d' ->]].
  - exact Hl.
  - apply lookup_app_l_Some. exact Hl.
Qed.

(** C8 (as amended): a round trip that yields a response whose
    rate-limit headers, where present, hold integer literals binds the
    tracker to a new record, made from that response's headers, whatever
    the status and before anything is returned or raised; and no request
    at all changes a dict object that existed before it, so a snapshot
    handed out earlier keeps its content. *)
Theorem request_rebinds_tracker method endpoint params json s :
  (forall r,
     answer s method endpoint params json = Responded r ->
     headers_numeric (int_max_str_digits (env s)) (resp_headers r) = true ->
     exists s',
       _request method endpoint params json s = (reply r, s')
       /\ rate_limit_info (self s') = length (heap (env s))
       /\ snapshot s' = Some (rate_limits (int_max_str_digits (env s)) (resp_headers r))
       /\ forall field name, (field, name) ∈ rate_limit_fields ->
            rate_limits (int_max_str_digits (env s)) (resp_headers r) !! field
            = Some (header_or_zero (int_max_str_digits (env s)) (resp_headers r) name))
  /\ (forall l d,
        heap (env s) !! l = Some d ->
        heap (env (_request method endpoint params json s).2) !! l = Some d).
Proof.
  split.
  - intros r Hans Hnum. eexists. split; [exact (request_responded _ _ _ _ _ _ Hans Hnum)|].
    split; [reflexivity|]. split; [apply snapshot_rebound|].
    intros field name. apply rate_limits_lookup.
  - intros l d. apply request_heap_frame.
Qed.

(** A failing status: the error is raised with the tracker already
    rebound, and the snapshot taken before the request is unchanged. *)
Lemma request_rebinds_tracker_witness :
  (exists s',
     _request "GET" "/v2/route-search" PNone PNone (demo_state (Responded Demo.bad_request))
     = (reply Demo.bad_request, s')
     /\ rate_limit_info (self s') = 1
     /\ snapshot s' = Some (rate_limits 4300 ∅))
  /\ heap (env (_request "GET" "/v2/route-search" PNone PNone
                  (demo_state (Responded Demo.bad_request))).2) !! 0
     = Some (∅ : gmap string Z).
Proof.
  split.
  - destruct (proj1 (request_rebinds_tracker "GET" "/v2/route-search" PNone PNone
                       (demo_state (Responded Demo.bad_request)))
                Demo.bad_request eq_refl eq_refl) as (s' & Hreq & Hloc & Hsnap & _).
    exists s'. split; [exact Hreq|]. split; [exact Hloc | exact Hsnap].
  - exact (proj2 (request_rebinds_tracker "GET" "/v2/route-search" PNone PNone
                    (demo_state (Responded Demo.bad_request))) 0 ∅ eq_refl).
Defined.

(** C8 (as stated) fails on a response with a rate-limit header that
    holds no integer literal: the tracker is not replaced, it is the
    object it was, with the content it had (no field at all, where the
    record made from the headers has [limit_day] at 0). *)
Lemma request_rebinds_tracker_counterexample :
  answer (demo_state (Responded Demo.routes_found_unlimited))
         "GET" "/v2/route-search" PNone PNone
  = Responded Demo.routes_found_unlimited
  /\ (_request "GET" "/v2/route-search" PNone PNone
        (demo_state (Responded Demo.routes_found_unlimited))).1
     = Raise (IntLiteralError "unlimited")
  /\ rate_limit_info
       (self (_request "GET" "/v2/route-search" PNone PNone
                (demo_state (Responded Demo.routes_found_unlimited))).2)
     = rate_limit_info (self (demo_state (Responded Demo.routes_found_unlimited)))
  /\ snapshot (_request "GET" "/v2/route-search" PNone PNone
                 (demo_state (Responded Demo.routes_found_unlimited))).2
     = Some ∅
  /\ (∅ : gmap string Z) !! "limit_day" = None
  /\ rate_limits 4300 (resp_headers Demo.routes_found_unlimited) !! "limit_day"
     = Some 0%Z.
Proof.
  split; [reflexivity|].
  split; [vm_compute; reflexivity|].
  split; [vm_compute; reflexivity|].
  split; [vm_compute; reflexivity|].
  split; vm_compute; reflexivity.
Qed.

(** ** Route search *)

(** C9 (as amended): for non-empty coordinates and a response of status
    200 whose rate-limit headers, where present, hold integer literals
    and whose body decodes, [search_routes] dispatches exactly one GET to
    the route-search path with [from] and [to] as its query parameters,
    and returns the decoded body as it is. *)
Theorem search_routes_returns_payload from_coords to_coords s r data :
  from_coords <> "" ->
  to_coords <> "" ->
  answer s "GET" "/v2/route-search"
         (PDict (<["from" := PStr from_coords]> (<["to" := PStr to_coords]> ∅))) PNone
  = Responded r ->
  resp_status r = 200%Z ->
  resp_json r = Decoded data ->
  headers_numeric (int_max_str_digits (env s)) (resp_headers r) = true ->
  exists s',
    search_routes from_coords to_coords s = (Return data, s')
    /\ sent (env s')
       = (sent (env s)
          ++ [mkRequest "GET" (base_url (self s) ++ "/v2/route-search")
                        (PDict (<["from" := PStr from_coords]>
                                  (<["to" := PStr to_coords]> ∅)))
                        PNone (timeout (self s)) (session_headers (session (self s)))])%list.
Proof.
  intros Hfrom Hto Hans Hstatus Hbody Hnum.
  unfold search_routes.
  rewrite (proj2 (truthy_str _) Hfrom), (proj2 (truthy_str _) Hto). cbn [negb orb].
  eexists. rewrite (request_responded _ _ _ _ _ _ Hans Hnum).
  split; [unfold reply, ok; rewrite Hbody, Hstatus; reflexivity | reflexivity].
Qed.

(** The scenario of the specification. *)
Lemma search_routes_returns_payload_witness :
  exists s',
    search_routes Demo.from_coords Demo.to_coords (demo_state (Responded Demo.routes_found))
    = (Return Demo.routes_body, s')
    /\ length (sent (env s')) = 1.
Proof.
  destruct (search_routes_returns_payload Demo.from_coords Demo.to_coords
              (demo_state (Responded Demo.routes_found)) Demo.routes_found Demo.routes_body
              ltac:(discriminate) ltac:(discriminate) eq_refl eq_refl eq_refl eq_refl)
    as (s' & Hres & Hsent).
  exists s'. split; [exact Hres | rewrite Hsent; reflexivity].
Defined.

(** C9 (as stated) fails on a status-200 response with a rate-limit
    header that holds no integer literal: the payload is not returned,
    the [ValueError] of [int] is raised. *)
Lemma search_routes_returns_payload_counterexample :
  resp_status Demo.routes_found_unlimited = 200%Z
  /\ resp_json Demo.routes_found_unlimited = Decoded Demo.routes_body
  /\ (search_routes Demo.from_coords Demo.to_coords
        (demo_state (Responded Demo.routes_found_unlimited))).1
     = Raise (IntLiteralError "unlimited").
Proof.
  split; [reflexivity|]. split; [reflexivity|]. vm_compute. reflexivity.
Qed.

(** ** Route listing *)

Local Ltac lookup_params :=
  repeat first
    [ rewrite lookup_insert_eq
    | rewrite lookup_insert_ne by discriminate
    | rewrite lookup_empty ].

Lemma filter_value_Some arg v :
  filter_value arg = Some v <-> exists m, arg = Some m /\ m <> "" /\ v = PStr m.
Proof.
  unfold filter_value. destruct arg as [[|c m]|]; cbn [truthy String.eqb negb].
  - split; [discriminate|]. intros (m & Hm & Hne & _). congruence.
  - split.
    + intros Hv. exists (String c m). split; [reflexivity|].
      split; [discriminate | congruence].
    + intros (x & Hx & _ & ->). congruence.
  - split; [discriminate|]. intros (m & Hm & _). discriminate Hm.
Qed.

Lemma list_routes_sent mode agency limit s :
  exists params : gmap string pyval,
    sent (env (list_routes mode agency limit s).2)
    = (sent (env s)
       ++ [request_of (self s) "GET" "/v2/routes/list" (PDict params) PNone])%list
    /\ params !! "limit" = Some (PInt (default 100%Z limit))
    /\ params !! "mode" = filter_value mode
    /\ params !! "agency" = filter_value agency
    /\ dom params ⊆ {["limit"; "mode"; "agency"]}.
Proof.
  unfold list_routes, filter_value.
  destruct mode as [m|], agency as [a|];
    try destruct (truthy (PStr m)); try destruct (truthy (PStr a));
    eexists; (split; [apply request_sent|]);
    repeat split; lookup_params; try reflexivity;
    rewrite ?dom_insert_L, dom_empty_L; set_solver.
Qed.

(** C10: the call [list_routes] dispatches always carries [limit] (100
    when left out), carries [mode] exactly when the argument is a
    non-empty string and [agency] exactly when the argument is a
    non-empty string, and nothing else; with the empty string for either
    filter the call is the one made with that argument left out. *)
Theorem list_routes_query mode agency limit s :
  (exists params : gmap string pyval,
     sent (env (list_routes mode agency limit s).2)
     = (sent (env s)
        ++ [request_of (self s) "GET" "/v2/routes/list" (PDict params) PNone])%list
     /\ params !! "limit" = Some (PInt (default 100%Z limit))
     /\ (forall v, params !! "mode" = Some v
                   <-> exists m, mode = Some m /\ m <> "" /\ v = PStr m)
     /\ (forall v, params !! "agency" = Some v
                   <-> exists a, agency = Some a /\ a <> "" /\ v = PStr a)
     /\ dom params ⊆ {["limit"; "mode"; "agency"]})
  /\ list_routes (Some "") agency limit s = list_routes None agency limit s
  /\ list_routes mode (Some "") limit s = list_routes mode None limit s.
Proof.
  split; [|split; reflexivity].
  destruct (list_routes_sent mode agency limit s)
    as (params & Hsent & Hlimit & Hmode & Hagency & Hdom).
  exists params. split; [exact Hsent|]. split; [exact Hlimit|].
  split; [|split; [|exact Hdom]]; intros v.
  - rewrite Hmode. apply filter_value_Some.
  - rewrite Hagency. apply filter_value_Some.
Qed.

Example list_routes_limit_only :
  sent (env (list_routes None None (Some 10%Z) (demo_state (Failed "unreachable"))).2)
  = [mkRequest "GET" "http://localhost:8080/v2/routes/list"
               (PDict (<["limit" := PInt 10]> ∅)) PNone 30 ∅].
Proof. vm_compute. reflexivity. Qed.

(** * Further properties *)

(** ** Extraction and the request, case by case *)

Lemma header_int_cases h name s :
  header_int h name s
  = match non_numeric_text (int_max_str_digits (env s)) h name with
    | Some text => (Raise (IntLiteralError text), s)
    | None => (Return (header_or_zero (int_max_str_digits (env s)) h name), s)
    end.
Proof.
  unfold header_int, non_numeric_text, header_or_zero.
  destruct (Headers.get h name) as [text|]; [|reflexivity].
  destruct (PyInt.of_string _ text); reflexivity.
Qed.

Lemma extract_cases h s :
  _extract_rate_limit_info h s
  = match first_non_numeric (int_max_str_digits (env s)) h with
    | Some text => (Raise (IntLiteralError text), s)
    | None => (Return tt, rebound (rate_limits (int_max_str_digits (env s)) h) s)
    end.
Proof.
  unfold _extract_rate_limit_info, first_non_numeric, rate_limit_fields, bind.
  cbn [omap list_omap snd].
  repeat
    (rewrite header_int_cases;
     match goal with
     | |- context [non_numeric_text ?m h ?n] =>
         destruct (non_numeric_text m h n); [reflexivity|]
     end).
  reflexivity.
Qed.

Lemma head_omap_None {A B} (f : A -> option B) (l : list A) :
  head (omap f l) = None <-> Forall (fun x => f x = None) l.
Proof.
  induction l as [|x l IH]; cbn.
  - split; [constructor | reflexivity].
  - destruct (f x) as [y|] eqn:Hx; cbn.
    + split; [discriminate|]. intros H. apply Forall_cons in H as [H _]. congruence.
    + rewrite IH. split; [intros H; constructor; assumption|].
      intros H. apply Forall_cons in H as [_ H]. exact H.
Qed.

Lemma non_numeric_text_None maxd h name :
  non_numeric_text maxd h name = None <-> header_numeric maxd h name = true.
Proof.
  unfold non_numeric_text, header_numeric.
  destruct (Headers.get h name) as [text|]; [|split; reflexivity].
  destruct (PyInt.of_string maxd text) as [n|].
  - split; [|reflexivity]. intros _. apply bool_decide_eq_true. eauto.
  - split; [discriminate|]. intros H. apply bool_decide_eq_true in H.
    destruct H; discriminate.
Qed.

Lemma first_non_numeric_None maxd h :
  first_non_numeric maxd h = None <-> headers_numeric maxd h = true.
Proof.
  unfold first_non_numeric, headers_numeric.
  rewrite head_omap_None, forallb_forall, Forall_forall.
  split; intros H fn Hin.
  - apply non_numeric_text_None, H, list_elem_of_In, Hin.
  - apply non_numeric_text_None, H, list_elem_of_In, Hin.
Qed.

Lemma request_cases method endpoint params json s :
  _request method endpoint params json s
  = match answer s method endpoint params json with
    | Responded r =>
        match first_non_numeric (int_max_str_digits (env s)) (resp_headers r) with
        | Some text =>
            (Raise (IntLiteralError text), dispatched s method endpoint params json)
        | None =>
            (reply r,
             rebound (rate_limits (int_max_str_digits (env s)) (resp_headers r))
                     (dispatched s method endpoint params json))
        end
    | TimedOut text =>
        (Raise (request_handler (RequestsTimeout text)),
         dispatched s method endpoint params json)
    | Failed text =>
        (Raise (request_handler (RequestException text)),
         dispatched s method endpoint params json)
    end.
Proof.
  rewrite request_dispatch.
  destruct (answer s method endpoint params json) as [r|text|text]; try reflexivity.
  destruct (first_non_numeric (int_max_str_digits (env s)) (resp_headers r))
    as [text|] eqn:Hfirst.
  - unfold try_except, handle_response, bind at 1. rewrite extract_cases.
    cbn [env dispatched int_max_str_digits]. rewrite Hfirst. reflexivity.
  - apply first_non_numeric_None in Hfirst.
    apply (handle_response_numeric r (dispatched s method endpoint params json) Hfirst).
Qed.

(** ** Construction: the base URL and the session *)

Lemma append_nil_l (s : string) : "" ++ s = s.
Proof. reflexivity. Qed.

Lemma append_cons (c : ascii) (s t : string) : String c s ++ t = String c (s ++ t).
Proof. reflexivity. Qed.

Lemma rstrip_copies ch s : exists n, s = Str.rstrip ch s ++ copies n ch.
Proof.
  induction s as [|c s [n IH]]; [exists 0; reflexivity|].
  cbn [Str.rstrip]. destruct (Str.rstrip ch s) as [|a r] eqn:Hr.
  - rewrite append_nil_l in IH. destruct (Ascii.eqb_spec c ch) as [->|Hne].
    + exists (S n). rewrite append_nil_l. cbn [copies]. congruence.
    + exists n. rewrite append_cons, append_nil_l. congruence.
  - exists n. rewrite append_cons. congruence.
Qed.

Lemma append_last_nonempty p (ch : ascii) : p ++ String ch EmptyString <> EmptyString.
Proof. destruct p; discriminate. Qed.

Lemma rstrip_no_trailing ch s p : Str.rstrip ch s <> p ++ String ch EmptyString.
Proof.
  revert p. induction s as [|c s IH]; intros p; cbn [Str.rstrip].
  - intros H. symmetry in H. exact (append_last_nonempty _ _ H).
  - destruct (Str.rstrip ch s) as [|a r] eqn:Hr.
    + destruct (Ascii.eqb_spec c ch) as [->|Hne].
      * intros H. symmetry in H. exact (append_last_nonempty _ _ H).
      * destruct p as [|b p].
        -- rewrite append_nil_l. intros H. injection H as H. contradiction.
        -- rewrite append_cons. intros H. injection H as _ H.
           symmetry in H. exact (append_last_nonempty _ _ H).
    + destruct p as [|b p].
      * rewrite append_nil_l. intros H. discriminate H.
      * rewrite append_cons. intros H. injection H as _ H. exact (IH p H).
Qed.

Lemma init_returns key url tmo dbg w c w' :
  PassBiClient_init key url tmo dbg w = (Return c, w') ->
  Str.startswith "pk_" key = true
  /\ c = mkClient key (Str.rstrip "/" (default "https://api.passbi.com" url))
                  (default 30%Z tmo) (default false dbg) (length (heap w))
                  (mkSession
                     (Headers.set "User-Agent" "PassBi-Python-SDK/2.0.0"
                        (Headers.set "Content-Type" "application/json"
                           (Headers.set "Authorization" ("Bearer " ++ key)
                              (default_headers w))))
                     false)
  /\ w' = mkWorld (remote w) (int_max_str_digits w) (default_headers w)
                  (sent w) (heap w ++ [∅]) (stdout w).
Proof.
  unfold PassBiClient_init.
  destruct (truthy (PStr key)); cbn [negb]; [|discriminate].
  destruct (Str.startswith "pk_" key); cbn [negb]; [|discriminate].
  intros [= <- <-]. repeat split.
Qed.

(** X1: a constructed client holds the base URL without any of its
    trailing slashes (all of them go, not just one), so the URL of a
    request never has a slash doubled at the joint; the time-out is 30
    and debugging is off unless given. *)
Theorem init_normalises_base_url key url tmo dbg w c w' :
  PassBiClient_init key url tmo dbg w = (Return c, w') ->
  (exists n, default "https://api.passbi.com" url = base_url c ++ copies n "/")
  /\ (forall p, base_url c <> p ++ "/")
  /\ timeout c = default 30%Z tmo
  /\ debug c = default false dbg.
Proof.
  intros Hinit. apply init_returns in Hinit as (_ & -> & _). cbn [base_url timeout debug].
  split; [apply rstrip_copies|]. split; [apply rstrip_no_trailing|]. split; reflexivity.
Qed.

Lemma init_normalises_base_url_witness :
  exists c w',
    PassBiClient_init "pk_test_1" (Some "http://localhost:8080//") None None
                      (world_answering (Failed "unreachable"))
    = (Return c, w')
    /\ base_url c = "http://localhost:8080"
    /\ (forall p, base_url c <> p ++ "/")
    /\ timeout c = 30%Z.
Proof.
  eexists _, _. split; [reflexivity|]. split; [reflexivity|].
  split; [|reflexivity].
  exact (proj1 (proj2 (init_normalises_base_url "pk_test_1" (Some "http://localhost:8080//")
                         None None (world_answering (Failed "unreachable")) _ _ eq_refl))).
Defined.

Local Ltac lower_names :=
  repeat
    match goal with
    | |- context [Str.lower ?n] =>
        let v := eval vm_compute in (Str.lower n) in
        change (Str.lower n) with v
    end.

(** X2: every request of a constructed client carries the three session
    headers: the bearer authorisation made from the key, the JSON content
    type and the SDK's user agent; and it goes to the base URL followed
    by the endpoint, with the client's time-out. *)
Theorem requests_carry_session_headers key url tmo dbg w c w'
    method endpoint params json :
  PassBiClient_init key url tmo dbg w = (Return c, w') ->
  exists req,
    sent (env (_request method endpoint params json (mkState c w')).2)
    = (sent w ++ [req])%list
    /\ req_method req = method
    /\ req_url req = base_url c ++ endpoint
    /\ req_timeout req = timeout c
    /\ Headers.get (req_headers req) "Authorization" = Some ("Bearer " ++ key)
    /\ Headers.get (req_headers req) "Content-Type" = Some "application/json"
    /\ Headers.get (req_headers req) "User-Agent" = Some "PassBi-Python-SDK/2.0.0".
Proof.
  intros Hinit. apply init_returns in Hinit as (_ & -> & ->).
  eexists. split; [apply request_sent|].
  cbn [request_of req_method req_url req_timeout req_headers self session session_headers
       base_url timeout].
  repeat (split; [reflexivity|]).
  unfold Headers.get, Headers.set. lower_names.
  repeat split.
  - rewrite !lookup_insert_ne by discriminate. apply lookup_insert_eq.
  - rewrite lookup_insert_ne by discriminate. apply lookup_insert_eq.
  - apply lookup_insert_eq.
Qed.

Lemma requests_carry_session_headers_witness :
  exists c w' req,
    PassBiClient_init "pk_live_1" None None None (world_answering (Failed "unreachable"))
    = (Return c, w')
    /\ sent (env (health_check (mkState c w')).2) = [req]
    /\ req_url req = "https://api.passbi.com/health"
    /\ Headers.get (req_headers req) "authorization" = Some "Bearer pk_live_1".
Proof.
  destruct (requests_carry_session_headers "pk_live_1" None None None
              (world_answering (Failed "unreachable")) _ _ "GET" "/health" PNone PNone eq_refl)
    as (req & Hsent & _ & Hurl & _ & Hauth & _).
  eexists _, _, req. split; [reflexivity|].
  split; [exact Hsent|]. split; [exact Hurl | exact Hauth].
Defined.

(** ** The request: success, undecodable bodies, malformed headers *)

Lemma ok_status r :
  ok r = true <-> (resp_status r < 400 \/ 600 <= resp_status r)%Z.
Proof.
  unfold ok. rewrite negb_true_iff, andb_false_iff, Z.leb_gt, Z.ltb_ge. tauto.
Qed.

(** X3: for a response whose rate-limit headers are well formed and
    whose body decodes, the request returns, exactly when the status is
    outside 400..599, and then it returns the body as decoded; a status
    inside 400..599 always raises.  So a status such as 302 or 600 counts
    as success. *)
Theorem request_returns_iff_ok method endpoint params json s r data :
  answer s method endpoint params json = Responded r ->
  headers_numeric (int_max_str_digits (env s)) (resp_headers r) = true ->
  resp_json r = Decoded data ->
  ((resp_status r < 400 \/ 600 <= resp_status r)%Z ->
   (_request method endpoint params json s).1 = Return data)
  /\ ((400 <= resp_status r < 600)%Z ->
      exists e, (_request method endpoint params json s).1 = Raise e)
  /\ (forall v, (_request method endpoint params json s).1 = Return v ->
        v = data /\ (resp_status r < 400 \/ 600 <= resp_status r)%Z).
Proof.
  intros Hans Hnum Hbody.
  rewrite (request_responded _ _ _ _ _ _ Hans Hnum). cbn [fst].
  unfold reply. rewrite Hbody.
  pose proof (ok_status r) as Hok. destruct (ok r).
  - split; [reflexivity|]. split.
    + intros Hrange. exfalso. destruct (proj1 Hok eq_refl); lia.
    + intros v [= <-]. split; [reflexivity | exact (proj1 Hok eq_refl)].
  - split; [intros Hrange; apply Hok in Hrange; discriminate|].
    split.
    + intros _. destruct data; eauto.
    + intros v Hret. destruct data; discriminate Hret.
Qed.

Lemma request_returns_iff_ok_witness :
  (search_routes Demo.from_coords Demo.to_coords
     (demo_state (Responded Sample.status_600))).1
  = Return Demo.routes_body
  /\ exists e,
       (search_routes Demo.from_coords Demo.to_coords
          (demo_state (Responded Sample.status_599))).1
       = Raise e.
Proof.
  split.
  - refine (proj1 (request_returns_iff_ok "GET" "/v2/route-search"
                    (PDict (<["from" := PStr Demo.from_coords]>
                              (<["to" := PStr Demo.to_coords]> ∅)))
                    PNone
                    (demo_state (Responded Sample.status_600))
                    Sample.status_600 Demo.routes_body
                    eq_refl eq_refl eq_refl) _).
    cbn. lia.
  - refine (proj1 (proj2 (request_returns_iff_ok "GET" "/v2/route-search"
                    (PDict (<["from" := PStr Demo.from_coords]>
                              (<["to" := PStr Demo.to_coords]> ∅)))
                    PNone
                    (demo_state (Responded Sample.status_599))
                    Sample.status_599 Demo.routes_body
                    eq_refl eq_refl eq_refl)) _).
    cbn. lia.
Defined.

(** X4: when the body of a response does not decode, the HTTP status is
    lost, whatever it was.  If the decoder's error is a
    [RequestException] (requests 2.27 and later), the second [except]
    clause turns it into a [PassBiError] of status 0 and code
    request_failed; if it is the json module's plain error, that error
    leaves [_request] as it is.  Either way the tracker has been rebound
    from the response's headers before. *)
Theorem request_body_not_json method endpoint params json s r :
  answer s method endpoint params json = Responded r ->
  headers_numeric (int_max_str_digits (env s)) (resp_headers r) = true ->
  (forall text,
     resp_json r = NotJSON (Some text) ->
     _request method endpoint params json s
     = (Raise (PassBiErr (mkPassBiError (PStr ("Request failed: " ++ text)) 0
                                        (PStr "request_failed") PNone)),
        rebound (rate_limits (int_max_str_digits (env s)) (resp_headers r))
                (dispatched s method endpoint params json)))
  /\ (resp_json r = NotJSON None ->
      _request method endpoint params json s
      = (Raise JSONDecodeError,
         rebound (rate_limits (int_max_str_digits (env s)) (resp_headers r))
                 (dispatched s method endpoint params json))).
Proof.
  intros Hans Hnum.
  rewrite (request_responded _ _ _ _ _ _ Hans Hnum). unfold reply.
  split; [intros text Hbody | intros Hbody]; rewrite Hbody; reflexivity.
Qed.

Lemma request_body_not_json_witness :
  (health_check
     (demo_state (Responded Sample.bad_gateway))).1
  = Raise (PassBiErr (mkPassBiError (PStr "Request failed: Expecting value") 0
                                    (PStr "request_failed") PNone)).
Proof.
  exact (f_equal fst
           (proj1 (request_body_not_json "GET" "/health" PNone PNone
                     (demo_state (Responded Sample.bad_gateway))
                     Sample.bad_gateway
                     eq_refl eq_refl)
              "Expecting value" eq_refl)).
Defined.

Lemma head_omap_Some {A B} (f : A -> option B) (l : list A) y :
  head (omap f l) = Some y ->
  exists i x,
    l !! i = Some x /\ f x = Some y
    /\ forall j x', j < i -> l !! j = Some x' -> f x' = None.
Proof.
  induction l as [|x l IH]; cbn; [discriminate|].
  destruct (f x) as [y'|] eqn:Hx; cbn.
  - intros [= ->]. exists 0, x. repeat split; [assumption|]. intros j x' Hj. lia.
  - intros H. destruct (IH H) as (i & x0 & Hi & Hf & Hbefore).
    exists (S i), x0. repeat split; [assumption..|].
    intros [|j] x' Hj Hx'; cbn in Hx'.
    + congruence.
    + apply (Hbefore j x'); [lia | assumption].
Qed.

(** X5: when a rate-limit header of the response holds no integer
    literal, the request raises the [ValueError] of [int] for the first
    such header in the order limit/remaining of second, day, month; the
    call has been dispatched, but the response is dropped (status and
    body are never looked at) and the tracker is not touched. *)
Theorem request_non_numeric_header method endpoint params json s r :
  answer s method endpoint params json = Responded r ->
  headers_numeric (int_max_str_digits (env s)) (resp_headers r) = false ->
  exists i field name text,
    rate_limit_fields !! i = Some (field, name)
    /\ Headers.get (resp_headers r) name = Some text
    /\ PyInt.of_string (int_max_str_digits (env s)) text = None
    /\ (forall j fn, j < i -> rate_limit_fields !! j = Some fn ->
          header_numeric (int_max_str_digits (env s)) (resp_headers r) fn.2 = true)
    /\ _request method endpoint params json s
       = (Raise (IntLiteralError text), dispatched s method endpoint params json)
    /\ snapshot (dispatched s method endpoint params json) = snapshot s.
Proof.
  intros Hans Hnum. rewrite request_cases, Hans.
  destruct (first_non_numeric (int_max_str_digits (env s)) (resp_headers r))
    as [text|] eqn:Hfirst.
  - apply head_omap_Some in Hfirst as (i & [field name] & Hi & Htext & Hbefore).
    exists i, field, name, text. split; [exact Hi|].
    unfold non_numeric_text in Htext. cbn [snd] in Htext.
    destruct (Headers.get (resp_headers r) name) as [text'|]; [|discriminate].
    destruct (PyInt.of_string _ text') eqn:Hint; [discriminate|].
    injection Htext as ->.
    split; [reflexivity|]. split; [exact Hint|].
    split; [|split; reflexivity].
    intros j fn Hj Hfn. apply non_numeric_text_None. exact (Hbefore j fn Hj Hfn).
  - apply first_non_numeric_None in Hfirst. congruence.
Qed.

Lemma request_non_numeric_header_witness :
  exists s',
    create_api_key "Production Key" None None None
      (demo_state (Responded Sample.created_unlimited))
    = (Raise (IntLiteralError "unlimited"), s')
    /\ length (sent (env s')) = 1.
Proof.
  destruct (request_non_numeric_header "POST" "/dashboard/api-keys" PNone
              (PDict (<["name" := PStr "Production Key"]>
                        (<["description" := PStr ""]>
                           (<["scopes" := PList [PStr "read:routes"]]> ∅))))
              (demo_state (Responded Sample.created_unlimited))
              Sample.created_unlimited
              eq_refl eq_refl)
    as (i & field & name & text & Hi & Hget & _ & _ & Hreq & _).
  assert (text = "unlimited") as ->.
  { assert (i < 6) as Hlt by (apply lookup_lt_Some in Hi; exact Hi).
    destruct i as [|[|[|[|[|[|i]]]]]]; try lia;
      injection Hi as <- <-; vm_compute in Hget; congruence. }
  eexists. split; [exact Hreq | reflexivity].
Defined.

(** ** Sequences of calls *)

Lemma perform_cases c s :
  if reaches_server c
  then exists method endpoint params json,
         perform c s = (_request method endpoint params json s).2
  else perform c s = s.
Proof.
  destruct c; cbn [reaches_server perform];
    try (unfold get_partner_info, list_api_keys, get_usage_stats, get_quota_usage,
           health_check, list_routes; eauto; fail).
  - unfold search_routes. destruct (truthy (PStr from_coords)), (truthy (PStr to_coords));
      cbn [negb orb andb]; eauto.
  - unfold find_nearby_stops. destruct (is_none lat), (is_none lon);
      cbn [negb orb andb]; eauto.
  - unfold create_api_key. destruct (truthy (PStr name)); cbn [negb]; eauto.
  - unfold revoke_api_key. destruct (truthy (PStr key_id)); cbn [negb]; eauto.
Qed.

Lemma dom_rate_limits maxd h :
  dom (rate_limits maxd h) = list_to_set (rate_limit_fields.*1).
Proof.
  unfold rate_limits, rate_limit_fields. cbn [foldr fst snd fmap list_fmap].
  rewrite !dom_insert_L, dom_empty_L. cbn. set_solver.
Qed.

Lemma request_tracker_shape method endpoint params json s :
  tracker_shape s -> tracker_shape (_request method endpoint params json s).2.
Proof.
  intros Hshape. rewrite request_cases.
  destruct (answer s method endpoint params json) as [r|text|text]; try exact Hshape.
  destruct (first_non_numeric _ (resp_headers r)); [exact Hshape|].
  cbn [snd]. eexists. split; [apply snapshot_rebound|]. right. apply dom_rate_limits.
Qed.

Lemma perform_tracker_shape c s : tracker_shape s -> tracker_shape (perform c s).
Proof.
  intros Hshape. pose proof (perform_cases c s) as H.
  destruct (reaches_server c).
  - destruct H as (m & e & p & j & ->). apply request_tracker_shape, Hshape.
  - rewrite H. exact Hshape.
Qed.

Lemma run_snoc cs c s : run (cs ++ [c]) s = perform c (run cs s).
Proof. unfold run. rewrite foldl_app. reflexivity. Qed.

(** X6: from construction on, through any sequence of calls (whether
    they return or raise), the tracker is either the empty record of
    construction or a record of exactly the six fields: a reader of the
    snapshot never sees some of the fields without the others. *)
Theorem tracker_shape_invariant key url tmo dbg w c w' (cs : list call) :
  PassBiClient_init key url tmo dbg w = (Return c, w') ->
  tracker_shape (run cs (mkState c w')).
Proof.
  intros Hinit. induction cs as [|c0 cs IH] using rev_ind.
  - apply init_returns in Hinit as (_ & -> & ->).
    exists ∅. split; [|left; reflexivity].
    unfold snapshot. cbn. rewrite lookup_app_r by reflexivity.
    rewrite Nat.sub_diag. reflexivity.
  - rewrite run_snoc. apply perform_tracker_shape, IH.
Qed.

Lemma tracker_shape_invariant_witness :
  exists c w',
    PassBiClient_init "pk_test_1" None None None (world_answering (Responded Demo.routes_found))
    = (Return c, w')
    /\ tracker_shape (run [GetRateLimitInfo; SearchRoutes "" ""; HealthCheck; GetQuotaUsage]
                          (mkState c w')).
Proof.
  eexists _, _. split; [reflexivity|].
  exact (tracker_shape_invariant "pk_test_1" None None None
           (world_answering (Responded Demo.routes_found)) _ _
           [GetRateLimitInfo; SearchRoutes "" ""; HealthCheck; GetQuotaUsage] eq_refl).
Defined.

Lemma perform_sent c s :
  exists new : list request,
    sent (env (perform c s)) = (sent (env s) ++ new)%list
    /\ length new = if reaches_server c then 1 else 0.
Proof.
  pose proof (perform_cases c s) as H.
  destruct (reaches_server c).
  - destruct H as (m & e & p & j & ->). rewrite request_sent. eauto.
  - rewrite H. exists []. split; [symmetry; apply app_nil_r | reflexivity].
Qed.

(** X7: one call, at most one request, and never a second try: over any
    sequence of calls the log of requests only grows at its end, by
    exactly one request for each call that passes its local validation
    and by none for the others ([get_rate_limit_info] included). *)
Theorem one_request_per_call (cs : list call) (s : state) :
  exists new : list request,
    sent (env (run cs s)) = (sent (env s) ++ new)%list
    /\ length new = length (filter (fun c => reaches_server c = true) cs).
Proof.
  induction cs as [|c cs (new & Hsent & Hlen)] using rev_ind.
  - exists []. split; [symmetry; apply app_nil_r | reflexivity].
  - rewrite run_snoc. destruct (perform_sent c (run cs s)) as (new' & Hsent' & Hlen').
    exists (new ++ new')%list. split.
    + rewrite Hsent', Hsent, <- app_assoc. reflexivity.
    + rewrite filter_app, !length_app, Hlen, Hlen'. f_equal.
      cbn [filter list_filter]. destruct (reaches_server c).
      * rewrite decide_True by reflexivity. reflexivity.
      * rewrite decide_False by discriminate. reflexivity.
Qed.

Example one_request_per_call_example :
  length (sent (env (run [SearchRoutes "" ""; HealthCheck; GetRateLimitInfo;
                          RevokeApiKey ""; ListRoutes None None None]
                         (demo_state (Failed "unreachable")))))
  = 2.
Proof. vm_compute. reflexivity. Qed.

Lemma request_keeps_configuration method endpoint params json s :
  let c := self s in
  let c' := self (_request method endpoint params json s).2 in
  api_key c' = api_key c /\ base_url c' = base_url c /\ timeout c' = timeout c
  /\ debug c' = debug c /\ session c' = session c.
Proof.
  cbv zeta. rewrite request_cases.
  destruct (answer s method endpoint params json) as [r|text|text];
    try (repeat split; fail).
  destruct (first_non_numeric _ (resp_headers r)); repeat split.
Qed.

(** X8: the configuration of a client never changes: after any sequence
    of calls the key, the base URL, the time-out, the debug flag and the
    session (headers, open or closed) are those of the start; only the
    tracker is ever rebound. *)
Theorem configuration_is_immutable (cs : list call) (s : state) :
  api_key (self (run cs s)) = api_key (self s)
  /\ base_url (self (run cs s)) = base_url (self s)
  /\ timeout (self (run cs s)) = timeout (self s)
  /\ debug (self (run cs s)) = debug (self s)
  /\ session (self (run cs s)) = session (self s).
Proof.
  induction cs as [|c cs IH] using rev_ind; [repeat split|].
  rewrite run_snoc. pose proof (perform_cases c (run cs s)) as H.
  destruct (reaches_server c).
  - destruct H as (m & e & p & j & ->).
    pose proof (request_keeps_configuration m e p j (run cs s)) as Hk. cbv zeta in Hk.
    destruct Hk as (-> & -> & -> & -> & ->). exact IH.
  - rewrite H. exact IH.
Qed.

(** ** What each method sends *)

Lemma is_none_false v : v <> PNone -> is_none v = false.
Proof. destruct v; [contradiction | reflexivity..]. Qed.

(** X9: [find_nearby_stops] tests its coordinates against [None], not
    for truth: any other value, a zero included, passes, and the method
    dispatches one GET to the nearby-stops path whose query has exactly
    [lat], [lon] and [radius], the radius being 500 when left out. *)
Theorem find_nearby_stops_request lat lon radius s :
  lat <> PNone ->
  lon <> PNone ->
  exists params : gmap string pyval,
    sent (env (find_nearby_stops lat lon radius s).2)
    = (sent (env s)
       ++ [request_of (self s) "GET" "/v2/stops/nearby" (PDict params) PNone])%list
    /\ params !! "lat" = Some lat
    /\ params !! "lon" = Some lon
    /\ params !! "radius" = Some (PInt (default 500%Z radius))
    /\ dom params = {["lat"; "lon"; "radius"]}.
Proof.
  intros Hlat Hlon. unfold find_nearby_stops.
  rewrite (is_none_false _ Hlat), (is_none_false _ Hlon). cbn [orb].
  eexists. split; [apply request_sent|].
  repeat split; lookup_params; reflexivity.
Qed.

Lemma find_nearby_stops_request_witness :
  exists params : gmap string pyval,
    sent (env (find_nearby_stops (PFloat 0) (PInt 0) None
                 (demo_state (Failed "unreachable"))).2)
    = [request_of demo_client "GET" "/v2/stops/nearby" (PDict params) PNone]
    /\ params !! "lat" = Some (PFloat 0)
    /\ params !! "radius" = Some (PInt 500).
Proof.
  destruct (find_nearby_stops_request (PFloat 0) (PInt 0) None
              (demo_state (Failed "unreachable")) ltac:(discriminate) ltac:(discriminate))
    as (params & Hsent & Hlat & _ & Hradius & _).
  exists params. split; [exact Hsent|]. split; [exact Hlat | exact Hradius].
Defined.

(** X10: [create_api_key] with a non-empty name dispatches one POST to
    the key path, without query, whose JSON body has the name, the
    description (empty when left out), the scopes (the single scope
    read:routes when left out, but an explicit empty list stays empty)
    and, only when an expiry is given, its ISO text; nothing else. *)
Theorem create_api_key_request name description scopes expires_at s :
  name <> "" ->
  exists body : gmap string pyval,
    sent (env (create_api_key name description scopes expires_at s).2)
    = (sent (env s)
       ++ [request_of (self s) "POST" "/dashboard/api-keys" PNone (PDict body)])%list
    /\ body !! "name" = Some (PStr name)
    /\ body !! "description" = Some (PStr (default "" description))
    /\ body !! "scopes" = Some (PList (PStr <$> default ["read:routes"] scopes))
    /\ body !! "expires_at" = (fun t => PStr (isoformat t)) <$> expires_at
    /\ dom body ⊆ {["name"; "description"; "scopes"; "expires_at"]}.
Proof.
  intros Hname. unfold create_api_key.
  rewrite (proj2 (truthy_str name) Hname). cbn [negb].
  destruct expires_at as [t|]; (eexists; split; [apply request_sent|]);
    repeat split; lookup_params; try reflexivity;
    rewrite !dom_insert_L, dom_empty_L; set_solver.
Qed.

Lemma create_api_key_request_witness :
  exists body : gmap string pyval,
    sent (env (create_api_key "Production Key" None (Some []) None
                 (demo_state (Failed "unreachable"))).2)
    = [request_of demo_client "POST" "/dashboard/api-keys" PNone (PDict body)]
    /\ body !! "scopes" = Some (PList [])
    /\ body !! "expires_at" = None.
Proof.
  destruct (create_api_key_request "Production Key" None (Some []) None
              (demo_state (Failed "unreachable")) ltac:(discriminate))
    as (body & Hsent & _ & _ & Hscopes & Hexp & _).
  exists body. split; [exact Hsent|]. split; [exact Hscopes | exact Hexp].
Defined.

(** X11: the remaining methods each dispatch exactly one request and
    nothing else: a GET without query or body to the partner, key-list,
    quota and health paths; a GET to the usage path whose only query
    entry is [days] (30 when left out); and, for a non-empty id, a DELETE
    to the key path followed by the id as it is, with nothing escaped. *)
Theorem endpoint_requests (s : state) :
  sent (env (get_partner_info s).2)
  = (sent (env s) ++ [request_of (self s) "GET" "/dashboard/me" PNone PNone])%list
  /\ sent (env (list_api_keys s).2)
     = (sent (env s) ++ [request_of (self s) "GET" "/dashboard/api-keys" PNone PNone])%list
  /\ sent (env (get_quota_usage s).2)
     = (sent (env s) ++ [request_of (self s) "GET" "/dashboard/quota" PNone PNone])%list
  /\ sent (env (health_check s).2)
     = (sent (env s) ++ [request_of (self s) "GET" "/health" PNone PNone])%list
  /\ (forall days,
        sent (env (get_usage_stats days s).2)
        = (sent (env s)
           ++ [request_of (self s) "GET" "/dashboard/usage"
                          (PDict {["days" := PInt (default 30%Z days)]}) PNone])%list)
  /\ (forall key_id,
        key_id <> "" ->
        sent (env (revoke_api_key key_id s).2)
        = (sent (env s)
           ++ [request_of (self s) "DELETE" ("/dashboard/api-keys/" ++ key_id)
                          PNone PNone])%list).
Proof.
  repeat split; try apply request_sent.
  - intros days. apply request_sent.
  - intros key_id Hid. unfold revoke_api_key.
    rewrite (proj2 (truthy_str key_id) Hid). apply request_sent.
Qed.

(** ** The errors a request raises, classified and as text *)

Lemma quota_code_iff (v : pyval) :
  in_strs v ["rate_limit_exceeded"; "daily_quota_exceeded"; "monthly_quota_exceeded"] = true
  <-> v = PStr "rate_limit_exceeded" \/ v = PStr "daily_quota_exceeded"
      \/ v = PStr "monthly_quota_exceeded".
Proof.
  destruct v as [| | | |c| |];
    try (split; [discriminate | intros [H|[H|H]]; discriminate H]).
  cbn [in_strs existsb]. rewrite !orb_true_iff, !String.eqb_eq. split.
  - intros [->|[->|[->|H]]]; [tauto | tauto | tauto | discriminate H].
  - intros [H|[H|H]]; injection H as ->; tauto.
Qed.

Lemma default_None_str (o : option pyval) c :
  default PNone o = PStr c <-> o = Some (PStr c).
Proof. destruct o as [v|]; cbn; split; congruence. Qed.

(** X12: an error response is classified by two unrelated parts of it:
    the error raised is a rate-limit error exactly when the body's
    [error] field is one of the three quota codes, whatever the status (a
    429 without that field is none), and an authentication error exactly
    when the status is 401 or 403, whatever the body says. *)
Theorem api_error_classification method endpoint params json s r body :
  answer s method endpoint params json = Responded r ->
  ok r = false ->
  resp_json r = Decoded (PDict body) ->
  headers_numeric (int_max_str_digits (env s)) (resp_headers r) = true ->
  exists e s',
    _request method endpoint params json s = (Raise (PassBiErr e), s')
    /\ (is_rate_limit_error e = true
        <-> body !! "error" = Some (PStr "rate_limit_exceeded")
            \/ body !! "error" = Some (PStr "daily_quota_exceeded")
            \/ body !! "error" = Some (PStr "monthly_quota_exceeded"))
    /\ (is_auth_error e = true <-> resp_status r = 401%Z \/ resp_status r = 403%Z).
Proof.
  intros Hans Hfail Hbody Hnum.
  eexists _, _. rewrite (request_responded _ _ _ _ _ _ Hans Hnum).
  unfold reply. rewrite Hbody, Hfail. split; [reflexivity|].
  unfold is_rate_limit_error, is_auth_error. cbn [error_code status_code existsb].
  split.
  - rewrite quota_code_iff, !default_None_str. reflexivity.
  - rewrite !orb_true_iff, !Z.eqb_eq. split.
    + intros [H|[H|H]]; [tauto | tauto | discriminate H].
    + tauto.
Qed.

Lemma api_error_classification_witness :
  exists e s',
    health_check (demo_state (Responded Sample.too_many_requests))
    = (Raise (PassBiErr e), s')
    /\ is_rate_limit_error e = false
    /\ is_auth_error e = false.
Proof.
  destruct (api_error_classification "GET" "/health" PNone PNone
              (demo_state (Responded Sample.too_many_requests))
              Sample.too_many_requests ∅ eq_refl eq_refl eq_refl eq_refl)
    as (e & s' & Hreq & Hrate & Hauth).
  exists e, s'. split; [exact Hreq|]. split.
  - destruct (is_rate_limit_error e); [|reflexivity].
    destruct (proj1 Hrate eq_refl) as [H|[H|H]]; discriminate H.
  - destruct (is_auth_error e); [|reflexivity].
    destruct (proj1 Hauth eq_refl) as [H|H]; discriminate H.
Defined.

(** X13: the errors made from transport failures are never rate-limit
    errors and never authentication errors, carry no details, and read
    [[timeout] Request timeout] and [[request_failed] Request failed: ]
    followed by the transport error's text. *)
Theorem transport_error_classification method endpoint params json s text :
  (answer s method endpoint params json = TimedOut text ->
   exists e s',
     _request method endpoint params json s = (Raise (PassBiErr e), s')
     /\ is_rate_limit_error e = false /\ is_auth_error e = false
     /\ details e = PNone
     /\ PassBiError_str e = Text "[timeout] Request timeout")
  /\ (answer s method endpoint params json = Failed text ->
      exists e s',
        _request method endpoint params json s = (Raise (PassBiErr e), s')
        /\ is_rate_limit_error e = false /\ is_auth_error e = false
        /\ details e = PNone
        /\ PassBiError_str e = Text ("[request_failed] Request failed: " ++ text)).
Proof.
  split; intros Hans; eexists _, _; rewrite request_cases, Hans;
    (split; [reflexivity|]); repeat split.
Qed.

Lemma str_truthy_code c m d status :
  c <> "" ->
  PassBiError_str (mkPassBiError (PStr m) status (PStr c) d) = Text ("[" ++ c ++ "] " ++ m).
Proof.
  intros Hc. unfold PassBiError_str. cbn [error_code message py_format].
  rewrite (proj2 (truthy_str c) Hc). reflexivity.
Qed.

(** X14: the text of an error response, for a body whose [error] and
    [message], where present, are non-empty strings: with both, the code
    in brackets and the message; with the code alone, the code in
    brackets and the code again, since the code also stands in for the
    missing message; with the message alone, the message; with neither,
    the fallback text. *)
Theorem api_error_text method endpoint params json s r body :
  answer s method endpoint params json = Responded r ->
  ok r = false ->
  resp_json r = Decoded (PDict body) ->
  headers_numeric (int_max_str_digits (env s)) (resp_headers r) = true ->
  exists e s',
    _request method endpoint params json s = (Raise (PassBiErr e), s')
    /\ (forall c m,
          body !! "error" = Some (PStr c) -> c <> "" ->
          body !! "message" = Some (PStr m) -> m <> "" ->
          PassBiError_str e = Text ("[" ++ c ++ "] " ++ m))
    /\ (forall c,
          body !! "error" = Some (PStr c) -> c <> "" ->
          body !! "message" = None ->
          PassBiError_str e = Text ("[" ++ c ++ "] " ++ c))
    /\ (forall m,
          body !! "error" = None ->
          body !! "message" = Some (PStr m) -> m <> "" ->
          PassBiError_str e = Text m)
    /\ (body !! "error" = None -> body !! "message" = None ->
        PassBiError_str e = Text "API request failed").
Proof.
  intros Hans Hfail Hbody Hnum.
  eexists _, _. rewrite (request_responded _ _ _ _ _ _ Hans Hnum).
  unfold reply. rewrite Hbody, Hfail. split; [reflexivity|].
  unfold message_if_truthy, py_or. repeat split.
  - intros c m -> Hc -> Hm. cbn [from_option id].
    rewrite (proj2 (truthy_str m) Hm). apply str_truthy_code, Hc.
  - intros c -> Hc ->. cbn [from_option id].
    change (truthy PNone) with false. cbv iota.
    rewrite (proj2 (truthy_str c) Hc). apply str_truthy_code, Hc.
  - intros m -> -> Hm. cbn [from_option id].
    rewrite (proj2 (truthy_str m) Hm). reflexivity.
  - intros -> ->. reflexivity.
Qed.

Lemma api_error_text_witness :
  exists e s',
    health_check
      (demo_state (Responded Sample.forbidden))
    = (Raise (PassBiErr e), s')
    /\ PassBiError_str e = Text "[forbidden] forbidden".
Proof.
  destruct (api_error_text "GET" "/health" PNone PNone
              (demo_state (Responded Sample.forbidden))
              Sample.forbidden Sample.forbidden_body eq_refl eq_refl eq_refl eq_refl)
    as (e & s' & Hreq & _ & Hcode & _).
  exists e, s'. split; [exact Hreq|].
  exact (Hcode "forbidden" eq_refl ltac:(discriminate) eq_refl).
Defined.

(** ** Debug output and closing *)

(** X15: the debug flag decides what is printed and nothing else: with
    the flag either way a request returns or raises the same, dispatches
    the same call and leaves the same tracker; with the flag off nothing
    is printed. *)
Theorem debug_only_prints method endpoint params json s b :
  (_request method endpoint params json (with_debug b s)).1
  = (_request method endpoint params json s).1
  /\ sent (env (_request method endpoint params json (with_debug b s)).2)
     = sent (env (_request method endpoint params json s).2)
  /\ heap (env (_request method endpoint params json (with_debug b s)).2)
     = heap (env (_request method endpoint params json s).2)
  /\ rate_limit_info (self (_request method endpoint params json (with_debug b s)).2)
     = rate_limit_info (self (_request method endpoint params json s).2)
  /\ stdout (env (_request method endpoint params json (with_debug false s)).2)
     = stdout (env s).
Proof.
  rewrite !request_cases.
  change (answer (with_debug b s) method endpoint params json)
    with (answer s method endpoint params json).
  change (answer (with_debug false s) method endpoint params json)
    with (answer s method endpoint params json).
  change (int_max_str_digits (env (with_debug b s))) with (int_max_str_digits (env s)).
  change (int_max_str_digits (env (with_debug false s))) with (int_max_str_digits (env s)).
  destruct (answer s method endpoint params json) as [r|text|text];
    [destruct (first_non_numeric _ (resp_headers r))| |];
    repeat split; cbn; apply app_nil_r.
Qed.

(** X16: [close] and the context manager only mark the session closed:
    a [with] block returns or raises what its body does, leaves the
    environment as the body left it, nothing dispatched and nothing
    printed by closing, and ends with the session closed on either
    path. *)
Theorem with_client_closes {A} (body : M A) (s : state) :
  (with_client body s).1 = (body s).1
  /\ env (with_client body s).2 = env (body s).2
  /\ session_closed (session (self (with_client body s).2)) = true
  /\ rate_limit_info (self (with_client body s).2) = rate_limit_info (self (body s).2)
  /\ session_headers (session (self (with_client body s).2))
     = session_headers (session (self (body s).2)).
Proof.
  unfold with_client, __enter__, __exit__, get_self, close.
  destruct (body s) as [r s']. repeat split.
Qed.

(** ** The test script *)

(** X17: the missing-parameters test passes against any server, even an
    unreachable one: it is decided locally, the client is left as it was
    and nothing is dispatched. *)
Theorem script_missing_params_passes (nm : string) (s : Script.st) :
  exists s',
    Script.test_endpoint nm Script.test_missing_params s
    = (Script.mkResult nm true (Some Script.Handled) None, s')
    /\ Script.client s' = Script.client s
    /\ Script.console s'
       = (Script.console s
          ++ [Script.Testing nm;
              Script.CorrectlyHandled
                (ValueError "Both from_coords and to_coords are required");
              Script.Pass])%list.
Proof.
  eexists. split; [reflexivity|]. split; [reflexivity|].
  cbn. rewrite <- !app_assoc. reflexivity.
Qed.




Lemma tracker_fields_present (d : gmap string Z) field :
  dom d = list_to_set (rate_limit_fields.*1) ->
  field ∈ rate_limit_fields.*1 ->
  is_Some (d !! field).
Proof.
  intros Hdom Hin. apply elem_of_dom. rewrite Hdom. apply elem_of_list_to_set, Hin.
Qed.

(** X19: the rate-limit test needs a response to have been read before:
    on the empty tracker of construction it fails with the [KeyError] of
    [remaining_day]; on a tracker with the six fields it passes and
    returns the tracker. *)
Theorem script_rate_limit_outcome (nm : string) (s : Script.st) :
  tracker_shape (Script.client s) ->
  (snapshot (Script.client s) = Some ∅ ->
   (Script.test_endpoint nm Script.test_rate_limit s).1
   = Script.mkResult nm false None (Some (Script.KeyError "remaining_day")))
  /\ (snapshot (Script.client s) <> Some ∅ ->
      (Script.test_endpoint nm Script.test_rate_limit s).1
      = Script.mkResult nm true
          (Some (Script.RateLimitInfo (rate_limit_info (self (Script.client s))))) None).
Proof.
  intros (d & Hsnap & Hshape).
  unfold Script.test_endpoint, Script.test_rate_limit, get_rate_limit_info, get_self, bind, ret.
  cbn [Script.say Script.client Script.console].
  unfold snapshot in *. rewrite Hsnap. split.
  - intros [= ->]. rewrite lookup_empty. reflexivity.
  - intros Hne. destruct Hshape as [-> | Hdom]; [congruence|].
    destruct (tracker_fields_present d "remaining_day" Hdom) as [x ->];
      [unfold rate_limit_fields; cbn; by repeat constructor|].
    destruct (tracker_fields_present d "limit_day" Hdom) as [y ->];
      [unfold rate_limit_fields; cbn; by repeat constructor|].
    reflexivity.
Qed.

Lemma script_rate_limit_outcome_witness :
  (Script.test_endpoint "Get rate limit info" Script.test_rate_limit
     (Script.mkSt (demo_state (Responded Demo.routes_found)) [])).1
  = Script.mkResult "Get rate limit info" false None
      (Some (Script.KeyError "remaining_day")).
Proof.
  refine (proj1 (script_rate_limit_outcome "Get rate limit info"
                   (Script.mkSt (demo_state (Responded Demo.routes_found)) []) _)
            eq_refl).
  exists ∅. split; [reflexivity | left; reflexivity].
Defined.

Lemma perform_unanswered c s :
  never_answers (env s) ->
  remote (env (perform c s)) = remote (env s)
  /\ self (perform c s) = self s
  /\ heap (env (perform c s)) = heap (env s).
Proof.
  intros Hnever. pose proof (perform_cases c s) as H.
  destruct (reaches_server c); [|rewrite H; repeat split].
  destruct H as (m & e & p & j & ->). rewrite request_cases.
  pose proof (Hnever (sent (env s)) (request_of (self s) m e p j)) as Hrem.
  unfold answer. destruct (remote (env s) (sent (env s)) _); [contradiction|..];
    repeat split.
Qed.

Lemma run_unanswered cs s :
  never_answers (env s) ->
  remote (env (run cs s)) = remote (env s)
  /\ self (run cs s) = self s
  /\ heap (env (run cs s)) = heap (env s).
Proof.
  intros Hnever. induction cs as [|c cs (Hrem & Hself & Hheap)] using rev_ind;
    [repeat split|].
  rewrite run_snoc.
  assert (never_answers (env (run cs s))) as Hnever'.
  { unfold never_answers. rewrite Hrem. exact Hnever. }
  destruct (perform_unanswered c (run cs s) Hnever') as (-> & -> & ->).
  repeat split; assumption.
Qed.

(** X20: against a server that never answers, whatever calls were made
    since construction, the rate-limit test does not report a connection
    problem: the transport failures left the tracker empty, and the test
    fails with the [KeyError] of [remaining_day]. *)
Theorem script_rate_limit_unreachable key url tmo dbg w c w' (cs : list call)
    (nm : string) (out : list Script.console_line) :
  PassBiClient_init key url tmo dbg w = (Return c, w') ->
  never_answers w ->
  (Script.test_endpoint nm Script.test_rate_limit
     (Script.mkSt (run cs (mkState c w')) out)).1
  = Script.mkResult nm false None (Some (Script.KeyError "remaining_day")).
Proof.
  intros Hinit Hnever. apply init_returns in Hinit as (_ & -> & ->).
  match goal with |- context [run cs ?s0] => set (s := s0) end.
  destruct (run_unanswered cs s Hnever) as (_ & Hself & Hheap).
  unfold Script.test_endpoint, Script.test_rate_limit, get_rate_limit_info, get_self, bind, ret.
  cbn [Script.say Script.client Script.console].
  rewrite Hself, Hheap. subst s. cbn [self env heap rate_limit_info].
  rewrite lookup_app_r by reflexivity. rewrite Nat.sub_diag. cbn.
  rewrite lookup_empty. reflexivity.
Qed.

Lemma never_answers_demo : never_answers (world_answering (Failed "unreachable")).
Proof. intros history req. exact I. Qed.

Lemma script_rate_limit_unreachable_witness :
  exists c w',
    PassBiClient_init "pk_test_1" None None None (world_answering (Failed "unreachable"))
    = (Return c, w')
    /\ (Script.test_endpoint "Get rate limit info" Script.test_rate_limit
          (Script.mkSt (run [SearchRoutes Demo.from_coords Demo.to_coords; HealthCheck]
                            (mkState c w')) [])).1
       = Script.mkResult "Get rate limit info" false None
           (Some (Script.KeyError "remaining_day")).
Proof.
  eexists _, _. split; [reflexivity|].
  exact (script_rate_limit_unreachable "pk_test_1" None None None
           (world_answering (Failed "unreachable")) _ _
           [SearchRoutes Demo.from_coords Demo.to_coords; HealthCheck]
           "Get rate limit info" [] eq_refl never_answers_demo).
Defined.

Lemma filter_success_split (results : list Script.test_result) :
  length (filter (fun r => Script.success r = true) results)
  + length (filter (fun r => Script.success r = false) results)
  = length results.
Proof.
  induction results as [|r results IH]; [reflexivity|].
  rewrite !filter_cons. destruct (Script.success r) eqn:Hr.
  - rewrite decide_True by reflexivity. rewrite decide_False by discriminate.
    cbn [length]. lia.
  - rewrite decide_False by discriminate. rewrite decide_True by reflexivity.
    cbn [length]. lia.
Qed.

(** X21: in the summary every result counts once, as passed or as
    failed, and the script ends with status 1 exactly when some result
    failed, with 0 exactly when all passed. *)
Theorem script_summary (results : list Script.test_result) :
  Script.passed results + Script.failed results = Script.total results
  /\ (Script.exit_status results = 1%Z
      <-> exists r, r ∈ results /\ Script.success r = false)
  /\ (Script.exit_status results = 0%Z
      <-> forall r, r ∈ results -> Script.success r = true).
Proof.
  split; [apply filter_success_split|].
  unfold Script.exit_status, Script.failed.
  destruct (filter (fun r => Script.success r = false) results) as [|r0 l] eqn:Hf; cbn.
  - split.
    + split; [discriminate|]. intros (r & Hin & Hr).
      assert (r ∈ filter (fun r => Script.success r = false) results) as Hin'
        by (apply list_elem_of_filter; split; assumption).
      rewrite Hf in Hin'. inversion Hin'.
    + split; [|reflexivity]. intros _ r Hin.
      destruct (Script.success r) eqn:Hr; [reflexivity|].
      assert (r ∈ filter (fun r => Script.success r = false) results) as Hin'
        by (apply list_elem_of_filter; split; assumption).
      rewrite Hf in Hin'. inversion Hin'.
  - assert (r0 ∈ filter (fun r => Script.success r = false) results) as Hin
        by (rewrite Hf; constructor).
    apply list_elem_of_filter in Hin as [Hr0 Hin].
    split.
    + split; [eauto | reflexivity].
    + split; [discriminate|]. intros Hall. rewrite (Hall r0 Hin) in Hr0. discriminate.
Qed.
